(** * zabbix_api: a shallow embedding of the Zabbix JSON-RPC client

    The definitions follow [zabbix_api.py]: the module-level helpers
    ([TRIGGER_SEVERITY], [hide_auth]), the two exception classes, and the
    [ZabbixAPI] class with its session state, its request life cycle
    ([json_obj], [do_request], [login], [relogin], [check_auth], [call])
    and its static helpers ([get_severity], [get_age]).

    Python values are modelled as the code has them: text as [string],
    integers as [Z], [None]-able attributes as [option], decoded JSON as
    an inductive type, and a method that mutates [self] and may raise as
    a state-and-exception computation that keeps the mutations made
    before the raise.  Readings of the clock are integers in a fixed
    unit, and the collaborators of the client (clock, HTTP transport,
    JSON codec, text codec) are parameters of its methods. *)

From Stdlib Require Import ZArith List String Ascii Bool Lia.
From Stdlib Require Import DecimalString SpecFloat.
Import ListNotations.

Set Warnings "-register-all".

#[local] Open Scope string_scope.
#[local] Open Scope Z_scope.

(** ** Python built-ins used by the module *)

Module Py.

(** [str(n)] and ['%d' % n] for an integer. *)
Definition str_int (n : Z) : string := NilZero.string_of_int (Z.to_int n).

(** [s.startswith(p)]. *)
Fixpoint startswith (p s : string) : bool :=
  match p, s with
  | EmptyString, _ => true
  | String _ _, EmptyString => false
  | String a p', String b s' => Ascii.eqb a b && startswith p' s'
  end.

(** [s[n:]] for [0 <= n]. *)
Fixpoint drop (n : nat) (s : string) : string :=
  match n, s with
  | O, _ => s
  | S _, EmptyString => EmptyString
  | S n', String _ s' => drop n' s'
  end.

(** [s.find(sub)]: the lowest index at which [sub] occurs, or [-1]. *)
Fixpoint find_from (i : Z) (sub s : string) : Z :=
  if startswith sub s then i
  else match s with
       | EmptyString => -1
       | String _ s' => find_from (i + 1) sub s'
       end.

Definition find (s sub : string) : Z := find_from 0 sub s.

(** [bool(s)] for text: the empty string is false. *)
Definition truthy_str (s : string) : bool :=
  match s with EmptyString => false | String _ _ => true end.

(** [bool(x)] for an attribute that holds [None] or text. *)
Definition truthy_opt_str (x : option string) : bool :=
  match x with None => false | Some s => truthy_str s end.

(** [bool(x)] for an attribute that holds [None] or a number. *)
Definition truthy_opt_num (x : option Z) : bool :=
  match x with None => false | Some n => negb (n =? 0) end.

(** [t[i]] on a tuple: an index in [-len(t), len(t))] selects an
    element, counting from the end when negative; any other index
    raises [IndexError], rendered here as [None]. *)
Definition getitem {A} (t : list A) (i : Z) : option A :=
  let n := Z.of_nat (List.length t) in
  if (0 <=? i) && (i <? n) then nth_error t (Z.to_nat i)
  else if (- n <=? i) && (i <? 0) then nth_error t (Z.to_nat (i + n))
  else None.

(** [divmod(a, b)] on integers: floor division and its remainder. *)
Definition divmod (a b : Z) : Z * Z := (a / b, a mod b).

(** [base64.b64encode(data).decode('ascii')] on a byte string. *)
Definition b64_digit (n : N) : ascii :=
  match String.get (N.to_nat n)
          "ABCDEFGHIJKLMNOPQRSTUVWXYZabcdefghijklmnopqrstuvwxyz0123456789+/" with
  | Some c => c
  | None => "="%char
  end.

Fixpoint b64encode (data : string) : string :=
  match data with
  | EmptyString => EmptyString
  | String a EmptyString =>
      let x := N_of_ascii a in
      String (b64_digit (x / 4)) (String (b64_digit (x mod 4 * 16)) "==")
  | String a (String b EmptyString) =>
      let x := N_of_ascii a in
      let y := N_of_ascii b in
      String (b64_digit (x / 4))
        (String (b64_digit (x mod 4 * 16 + y / 16))
           (String (b64_digit (y mod 16 * 4)) "="))
  | String a (String b (String c rest)) =>
      let x := N_of_ascii a in
      let y := N_of_ascii b in
      let z := N_of_ascii c in
      String (b64_digit (x / 4))
        (String (b64_digit (x mod 4 * 16 + y / 16))
           (String (b64_digit (y mod 16 * 4 + z / 64))
              (String (b64_digit (z mod 64)) (b64encode rest))))
  end%N.

End Py.

(** ** Module constants *)

Definition TRIGGER_SEVERITY : list string :=
  [ "not_classified"; "information"; "warning"; "average"; "high"; "disaster" ].

(** ** [get_severity] *)

(** [prio] is the value of [int(prio)]. *)
Definition get_severity (prio : Z) : string :=
  match Py.getitem TRIGGER_SEVERITY prio with
  | Some label => label
  | None => "unknown"
  end.

(** ** [hide_auth] *)

Definition dquote : ascii := Ascii.ascii_of_nat 34.
Definition newline : ascii := Ascii.ascii_of_nat 10.

(** The text each pattern of [RE_HIDE_AUTH] starts with: the captured
    group (the quoted key, a colon and a space) followed by the opening
    quote of the value. *)
Definition field_open (key : string) : string :=
  String dquote key ++ String dquote (": " ++ String dquote EmptyString).

(** The replacement: the captured group followed by three asterisks in
    double quotes. *)
Definition field_masked (key : string) : string :=
  field_open key ++ "***" ++ String dquote EmptyString.

(** The lazy run of any characters closed by a double quote, matched at
    the head of [s]: the number of characters taken up to and including
    the first double quote, provided no newline comes before it (the dot
    does not match a newline). *)
Fixpoint lazy_to_quote (s : string) : option nat :=
  match s with
  | EmptyString => None
  | String c r =>
      if Ascii.eqb c dquote then Some 1%nat
      else if Ascii.eqb c newline then None
      else option_map S (lazy_to_quote r)
  end.

(** The length of the match of a pattern of [RE_HIDE_AUTH] at the head
    of [s]. *)
Definition field_match (key s : string) : option nat :=
  let open := field_open key in
  if Py.startswith open s
  then option_map (Nat.add (String.length open))
                  (lazy_to_quote (Py.drop (String.length open) s))
  else None.

(** [pattern.sub(repl, msg)]: scan left to right; where the pattern
    matches, emit the replacement and resume after the match; elsewhere
    copy one character.  [skip] counts the characters of the current
    match that are still to be passed over. *)
Fixpoint re_sub (key : string) (skip : nat) (s : string) : string :=
  match s with
  | EmptyString => EmptyString
  | String c r =>
      match skip with
      | S k => re_sub key k r
      | O =>
          match field_match key s with
          | Some n => field_masked key ++ re_sub key (Nat.pred n) r
          | None => String c (re_sub key O r)
          end
      end
  end.

Definition RE_HIDE_AUTH : list string := [ "auth"; "password" ].

Definition hide_auth (msg : string) : string :=
  fold_left (fun m key => re_sub key O m) RE_HIDE_AUTH msg.

(** ** [get_age] *)

(** A naive [datetime] is a point on the proleptic calendar, counted in
    microseconds; [datetime.now() - dt] is exact on such values. *)
Record timedelta := { days : Z; seconds : Z; microseconds : Z }.

(** The normalised difference: [0 <= seconds < 86400] and
    [0 <= microseconds < 1000000], the sign carried by [days]. *)
Definition datetime_sub (a b : Z) : timedelta :=
  let us := a - b in
  {| days := us / 86400000000;
     seconds := (us mod 86400000000) / 1000000;
     microseconds := us mod 1000000 |}.

Definition fmt_dhm (d h m : Z) : string :=
  Py.str_int d ++ "d " ++ Py.str_int h ++ "h " ++ Py.str_int m ++ "m".

Definition fmt_hms (h m s : Z) : string :=
  Py.str_int h ++ "h " ++ Py.str_int m ++ "m " ++ Py.str_int s ++ "s".

(** [now] is the reading of [datetime.now()]. *)
Definition get_age (now dt : Z) : string :=
  let delta := datetime_sub now dt in
  let '(hours, rem) := Py.divmod (seconds delta) 3600 in
  let '(minutes, secs) := Py.divmod rem 60 in
  if negb (days delta =? 0)
  then fmt_dhm (days delta) hours minutes
  else fmt_hms hours minutes secs.

(** ** Decoded JSON and Python truth value *)

Inductive json : Type :=
| JNull                                   (* None *)
| JBool (b : bool)
| JInt (n : Z)
| JFloat (f : spec_float)
| JStr (s : string)
| JList (l : list json)
| JDict (d : list (string * json)).

(** A [dict] with text keys is kept as an association list in which the
    first binding of a key is the one in force. *)
Definition dict := list (string * json).

Fixpoint dict_get (d : dict) (k : string) : option json :=
  match d with
  | [] => None
  | (k', v) :: d' => if String.eqb k' k then Some v else dict_get d' k
  end.

(** [dict(base, **kwargs)]: the bindings of [kwargs] override [base]. *)
Definition dict_update (base kwargs : dict) : dict := (kwargs ++ base)%list.

(** [bool(x)]. *)
Definition truthy (x : json) : bool :=
  match x with
  | JNull => false
  | JBool b => b
  | JInt n => negb (n =? 0)
  | JFloat (S754_zero _) => false
  | JFloat _ => true
  | JStr s => Py.truthy_str s
  | JList l => match l with [] => false | _ :: _ => true end
  | JDict d => match d with [] => false | _ :: _ => true end
  end.

(** ** Exceptions *)

Inductive exn : Type :=
| ZabbixAPIException (args : string)
| ZabbixAPIError (error : dict) (args : string)
| TypeError
| ValueError (args : string)
| AttributeError (args : string)
| UnicodeError (args : string)     (* UnicodeEncodeError or UnicodeDecodeError *)
| OverflowError (args : string)
| OtherError (args : string).      (* raised inside the HTTP library *)

(** [except ZabbixAPIException] also catches the subclass. *)
Definition is_ZabbixAPIException (e : exn) : bool :=
  match e with
  | ZabbixAPIException _ | ZabbixAPIError _ _ => true
  | _ => false
  end.

(** [str(ex)] for the exceptions of this module: the single argument
    handed to [Exception.__init__]. *)
Definition str_exn (e : exn) : string :=
  match e with
  | ZabbixAPIException m | ZabbixAPIError _ m => m
  | ValueError m | AttributeError m => m
  | UnicodeError m | OverflowError m | OtherError m => m
  | TypeError => EmptyString
  end.

(** [ZabbixAPIException.__init__]. *)
Definition new_ZabbixAPIException (msg : string) : exn :=
  ZabbixAPIException (hide_auth msg).

Definition _error_template : dict :=
  [ ("code", JInt (-1)); ("message", JStr ""); ("data", JNull) ].

(** ** [collections.deque] with [maxlen] *)

Record deque := { maxlen : option nat; items : list string }.

(** The largest value of the C type that holds a length, on a 64-bit
    build of the interpreter. *)
Definition ssize_max : Z := 2 ^ 63 - 1.

(** [deque(maxlen=n)]: a [maxlen] beyond the C type raises
    [OverflowError], a negative one [ValueError]. *)
Definition deque_new (n : option Z) : exn + deque :=
  match n with
  | None => inr {| maxlen := None; items := [] |}
  | Some z =>
      if (z <? - ssize_max - 1) || (ssize_max <? z) then
        inl (OverflowError "Python int too large to convert to C ssize_t")
      else if z <? 0 then inl (ValueError "maxlen must be non-negative")
      else inr {| maxlen := Some (Z.to_nat z); items := [] |}
  end.

(** The last [n] elements of [l]. *)
Definition last_n {A} (n : nat) (l : list A) : list A :=
  skipn (List.length l - n) l.

(** [d.append(x)]: add on the right, and discard from the left what
    exceeds [maxlen]. *)
Definition deque_append (d : deque) (x : string) : deque :=
  {| maxlen := maxlen d;
     items := match maxlen d with
              | None => (items d ++ [x])%list
              | Some n => last_n n (items d ++ [x])%list
              end |}.

(** ** The client object *)

(** [ZabbixAPISubClass]: its [parent] is the client that made it. *)
Record ZabbixAPISubClass := { prefix : string }.

(** [bool(obj)] for a wrapper: the class defines neither [__bool__] nor
    [__len__], and [__getattr__] is not consulted for them. *)
Definition truthy_sub (_ : ZabbixAPISubClass) : bool := true.

Record ZabbixAPI := {
  __username : option string;
  __password : option string;
  __auth : json;
  httpuser : option string;
  httppasswd : option string;
  _http_headers : list (string * string);
  _api_url : string;
  id : Z;
  last_login : option Z;
  server : string;
  relogin_interval : option Z;
  r_query : deque;
  (* names bound on the instance by [setattr] in [__getattr__] *)
  __dict__ : list (string * ZabbixAPISubClass)
}.

(** The names found by ordinary attribute lookup: those of the class
    body and those assigned in [__init__] and [init]. *)
Definition ZabbixAPI_names : list string :=
  [ "_ZabbixAPI__username"; "_ZabbixAPI__password"; "_ZabbixAPI__auth";
    "_http_handler"; "_http_headers"; "_api_url"; "id"; "last_login";
    "QUERY_EXTEND"; "QUERY_COUNT"; "SORT_ASC"; "SORT_DESC";
    "__init__"; "__repr__"; "__getattr__"; "init"; "get_severity";
    "get_datetime"; "convert_datetime"; "timestamp_to_datetime"; "get_age";
    "recent_query"; "set_log_level"; "log"; "debug"; "json_obj";
    "do_request"; "login"; "relogin"; "logged_in"; "check_auth";
    "api_version"; "call";
    "logger"; "server"; "httpuser"; "httppasswd"; "timeout";
    "relogin_interval"; "r_query" ].

Definition set_credentials (u p : option string) (s : ZabbixAPI) : ZabbixAPI :=
  {| __username := u; __password := p; __auth := __auth s;
     httpuser := httpuser s;
     httppasswd := httppasswd s; _http_headers := _http_headers s;
     _api_url := _api_url s; id := id s; last_login := last_login s;
     server := server s; relogin_interval := relogin_interval s;
     r_query := r_query s; __dict__ := __dict__ s |}.

Definition set_auth (a : json) (s : ZabbixAPI) : ZabbixAPI :=
  {| __username := __username s; __password := __password s; __auth := a;
     httpuser := httpuser s;
     httppasswd := httppasswd s; _http_headers := _http_headers s;
     _api_url := _api_url s; id := id s; last_login := last_login s;
     server := server s; relogin_interval := relogin_interval s;
     r_query := r_query s; __dict__ := __dict__ s |}.

Definition set_id (n : Z) (s : ZabbixAPI) : ZabbixAPI :=
  {| __username := __username s; __password := __password s;
     __auth := __auth s; httpuser := httpuser s;
     httppasswd := httppasswd s; _http_headers := _http_headers s;
     _api_url := _api_url s; id := n;
     last_login := last_login s; server := server s;
     relogin_interval := relogin_interval s; r_query := r_query s;
     __dict__ := __dict__ s |}.

Definition set_last_login (t : option Z) (s : ZabbixAPI) : ZabbixAPI :=
  {| __username := __username s; __password := __password s;
     __auth := __auth s; httpuser := httpuser s;
     httppasswd := httppasswd s; _http_headers := _http_headers s;
     _api_url := _api_url s; id := id s;
     last_login := t; server := server s;
     relogin_interval := relogin_interval s; r_query := r_query s;
     __dict__ := __dict__ s |}.

Definition set_relogin_interval (i : option Z) (s : ZabbixAPI) : ZabbixAPI :=
  {| __username := __username s; __password := __password s;
     __auth := __auth s; httpuser := httpuser s;
     httppasswd := httppasswd s; _http_headers := _http_headers s;
     _api_url := _api_url s; id := id s;
     last_login := last_login s; server := server s;
     relogin_interval := i; r_query := r_query s;
     __dict__ := __dict__ s |}.

Definition set_r_query (q : deque) (s : ZabbixAPI) : ZabbixAPI :=
  {| __username := __username s; __password := __password s;
     __auth := __auth s; httpuser := httpuser s;
     httppasswd := httppasswd s; _http_headers := _http_headers s;
     _api_url := _api_url s; id := id s;
     last_login := last_login s; server := server s;
     relogin_interval := relogin_interval s; r_query := q;
     __dict__ := __dict__ s |}.

Definition set_attr (name : string) (o : ZabbixAPISubClass) (s : ZabbixAPI)
  : ZabbixAPI :=
  {| __username := __username s; __password := __password s;
     __auth := __auth s; httpuser := httpuser s;
     httppasswd := httppasswd s; _http_headers := _http_headers s;
     _api_url := _api_url s; id := id s;
     last_login := last_login s; server := server s;
     relogin_interval := relogin_interval s; r_query := r_query s;
     __dict__ := (name, o) :: __dict__ s |}.

(** [server.split('://')[0]]: the text before the first separator, the
    whole text when there is none. *)
Fixpoint split_head (sep s : string) : string :=
  if Py.startswith sep s then EmptyString
  else match s with
       | EmptyString => EmptyString
       | String c r => String c (split_head sep r)
       end.

(** The headers [init] builds: the two fixed ones, and the one for HTTP
    basic authentication when [httpuser] is true in Python's sense;
    joining the user with a password that is [None] raises
    [TypeError], and a text that cannot be encoded raises the codec's
    error. *)
Definition init_headers (encode_utf8 : string -> string + string)
  (user passwd : option string) : exn + list (string * string) :=
  let headers := [ ("Content-Type", "application/json-rpc");
                   ("User-Agent", "python/zabbix_api") ] in
  if Py.truthy_opt_str user then
    match user, passwd with
    | Some u, Some p =>
        match encode_utf8 (u ++ ":" ++ p) with
        | inl e => inl (UnicodeError e)
        | inr bytes =>
            inr (headers
                 ++ [ ("Authorization", ("Basic " ++ Py.b64encode bytes)%string) ])%list
        end
    | _, _ => inl TypeError
    end
  else inr headers.

(** [__init__] followed by [init]; [log_level] is an [int] and
    [timeout] a number, which the logger and the transport take as
    they come.  [encode_utf8] is [str.encode('utf-8')]: the bytes, or
    the text of the error the codec raises. *)
Definition __init__ (encode_utf8 : string -> string + string)
  (server : string) (user passwd : option string)
  (relogin_interval r_query_len : option Z)
  : exn + ZabbixAPI :=
  match deque_new r_query_len with
  | inl e => inl e
  | inr q =>
      let proto := split_head "://" server in
      if String.eqb proto "https" || String.eqb proto "http" then
        match init_headers encode_utf8 user passwd with
        | inl e => inl e
        | inr headers =>
            inr {| __username := None; __password := None; __auth := JNull;
                   httpuser := user; httppasswd := passwd;
                   _http_headers := headers;
                   _api_url := server ++ "/api_jsonrpc.php"; id := 0;
                   last_login := None; server := server;
                   relogin_interval := relogin_interval; r_query := q;
                   __dict__ := [] |}
        end
      else inl (ValueError ("Invalid protocol " ++ proto))
  end.

Definition logged_in (s : ZabbixAPI) : bool := truthy (__auth s).

Definition recent_query (s : ZabbixAPI) : list string := items (r_query s).

(** ** The world outside the client *)

(** What [urllib2.Request], [opener.open] and [response.read] yield for
    a body: the request cannot be built ([ValueError], for a URL of an
    unknown type or a body that cannot be encoded), [open] raises, the
    response is read, or reading it raises. *)
Inductive reply : Type :=
| Failed (e : string)                     (* [open] raised; [e] is [str(e)] *)
| Answered (code : Z) (reason reads : string)
| Unsendable (e : string)                 (* [urllib2.Request] raised [ValueError] *)
| Unread (code : Z) (reason e : string).  (* [response.read] raised *)

(** What a test double would record: every body handed to the HTTP
    library for a POST, and every entry into [login] and [relogin].
    No operation reads the calls; requests are answered from the
    bodies posted so far. *)
Inductive event : Type :=
| Ev_post (body : string)
| Ev_login
| Ev_relogin.

(** [ticks] counts the calls of [time()]; [history] is newest first. *)
Record world := { ticks : nat; history : list event }.

Definition posted (h : list event) : list string :=
  flat_map (fun e => match e with Ev_post b => [b] | _ => [] end) h.

Definition count_relogin (h : list event) : nat :=
  List.length (filter (fun e => match e with Ev_relogin => true | _ => false end) h).

Definition count_post (h : list event) : nat := List.length (posted h).

(** ** Computations that mutate [self] and may raise *)

Definition state := (ZabbixAPI * world)%type.

Inductive outcome (A : Type) : Type :=
| Return (a : A)
| Raise (e : exn).
Arguments Return {A} a.
Arguments Raise {A} e.

Definition M (A : Type) : Type := state -> outcome A * state.

Definition ret {A} (a : A) : M A := fun st => (Return a, st).

Definition raise {A} (e : exn) : M A := fun st => (Raise e, st).

Definition bind {A B} (c : M A) (k : A -> M B) : M B :=
  fun st =>
    match c st with
    | (Return a, st') => k a st'
    | (Raise e, st') => (Raise e, st')
    end.

Declare Scope py_scope.
Delimit Scope py_scope with py.
Notation "x <- c ;; k" := (bind c (fun x => k))
  (at level 61, c at next level, right associativity) : py_scope.
Notation "c ;; k" := (bind c (fun _ => k))
  (at level 61, right associativity) : py_scope.
#[local] Open Scope py_scope.

(** [try: body except E as ex: handler(ex)]: [handler] answers [None]
    for an exception its clause does not catch. *)
Definition try_except {A} (body : M A) (handler : exn -> option (M A)) : M A :=
  fun st =>
    match body st with
    | (Return a, st') => (Return a, st')
    | (Raise e, st') =>
        match handler e with
        | Some h => h st'
        | None => (Raise e, st')
        end
    end.

(** [try: body finally: final]. *)
Definition try_finally {A} (body : M A) (final : M unit) : M A :=
  fun st =>
    match body st with
    | (r, st') =>
        match final st' with
        | (Return _, st'') => (r, st'')
        | (Raise e, st'') => (Raise e, st'')
        end
    end.

Definition self : M ZabbixAPI := fun st => (Return (fst st), st).

Definition update (f : ZabbixAPI -> ZabbixAPI) : M unit :=
  fun st => (Return tt, (f (fst st), snd st)).

Definition emit (e : event) : M unit :=
  fun st => (Return tt,
             (fst st, {| ticks := ticks (snd st);
                         history := e :: history (snd st) |})).

Section Client.

(** The collaborators of the client: the clock, the HTTP transport
    and the JSON codec, and Python's rendering of a decoded value. *)
Variable clock : nat -> Z.                     (* the n-th reading of [time()] *)
Variable transport : list string -> string -> reply.
                                  (* bodies posted before, newest first; this body *)
Variable json_dumps : json -> string.
Variable json_loads : string -> string + json. (* [inl e]: a [ValueError] *)
Variable repr : json -> string.
Variable encode_utf8 : string -> string + string.
                                  (* [inl e]: the codec raised, with text [e] *)

(** [str(x)], as used by the [%s] conversions. *)
Definition str (x : json) : string :=
  match x with
  | JNull => "None"
  | JBool true => "True"
  | JBool false => "False"
  | JInt n => Py.str_int n
  | JStr s => s
  | _ => repr x
  end.

(** [ZabbixAPIError.__init__]. *)
Definition new_ZabbixAPIError (error_kwargs : dict) : exn :=
  let error := dict_update _error_template error_kwargs in
  let field k := match dict_get error k with Some v => str v | None => "" end in
  let msg := field "message" ++ " " ++ field "data" ++ " [" ++ field "code" ++ "]" in
  ZabbixAPIError error (hide_auth msg).

Definition time : M Z :=
  fun st => (Return (clock (ticks (snd st))),
             (fst st, {| ticks := S (ticks (snd st));
                         history := history (snd st) |})).

(** [urllib2.Request(...)], [opener.open(request, timeout=...)] and
    [response.read()]. *)
Definition opener_open (body : string) : M reply :=
  fun st => (Return (transport (posted (history (snd st))) body),
             (fst st, {| ticks := ticks (snd st);
                         history := Ev_post body :: history (snd st) |})).

(** [ZabbixAPI.__getattr__]. *)
Definition __getattr__ (name : string) : M ZabbixAPISubClass :=
  if Py.startswith "_" name then
    raise (AttributeError
             ("<class 'zabbix_api.ZabbixAPI'> object has no attribute '"
              ++ name ++ "'"))
  else
    let api_method := {| prefix := name |} in
    update (set_attr name api_method) ;;
    ret api_method.

(** [getattr(self, name)] for a name that ordinary lookup does not find
    in the class or among the attributes set at construction (a name
    outside [ZabbixAPI_names] and without two leading underscores):
    the names bound by [setattr] first, [__getattr__] otherwise. *)
Definition getattr (name : string) : M ZabbixAPISubClass :=
  s <- self ;;
  match find (fun kv => String.eqb (fst kv) name) (__dict__ s) with
  | Some (_, o) => ret o
  | None => __getattr__ name
  end.

(** The test [self.relogin_enabled] in [call]. *)
Definition relogin_enabled : M bool :=
  o <- getattr "relogin_enabled" ;;
  ret (truthy_sub o).

Definition json_obj (method : string) (params : json) (auth : bool) : M string :=
  s <- self ;;
  let params := match params with JNull => JDict [] | _ => params end in
  let obj := JDict [ ("jsonrpc", JStr "2.0");
                     ("method", JStr method);
                     ("params", params);
                     ("auth", if auth then __auth s else JNull);
                     ("id", JInt (id s)) ] in
  ret (json_dumps obj).

Definition do_request (json_obj : string) : M json :=
  update (fun s => set_r_query (deque_append (r_query s) json_obj) s) ;;
  response <- opener_open json_obj ;;
  match response with
  | Unsendable e => raise (ValueError e)
  | Failed e => raise (new_ZabbixAPIException ("HTTP connection problem: " ++ e))
  | Unread code reason e =>
      if negb (code =? 200) then
        raise (new_ZabbixAPIException
                 ("HTTP error " ++ Py.str_int code ++ ": " ++ reason))
      else raise (OtherError e)
  | Answered code reason reads =>
      if negb (code =? 200) then
        raise (new_ZabbixAPIException
                 ("HTTP error " ++ Py.str_int code ++ ": " ++ reason))
      else if (String.length reads =? 0)%nat then
        raise (new_ZabbixAPIException "Received zero answer")
      else
        match json_loads reads with
        | inl e => raise (new_ZabbixAPIException ("Unable to decode response: " ++ e))
        | inr jobj =>
            update (fun s => set_id (id s + 1) s) ;;
            match jobj with
            | JDict d =>
                match dict_get d "error" with
                | Some (JDict error) =>
                    (* the keys of [error] are passed as keywords: a key
                       [self] clashes with the first parameter of
                       [__init__] *)
                    match dict_get error "self" with
                    | Some _ => raise TypeError
                    | None => raise (new_ZabbixAPIError error)
                    end
                | _ =>
                    match dict_get d "result" with
                    | Some result => ret result
                    | None =>
                        raise (new_ZabbixAPIException "Missing result in API response")
                    end
                end
            | _ =>
                (* ['error' in jobj] or the subscript that follows it
                   raises [TypeError] when [jobj] is not a dict *)
                raise TypeError
            end
        end
  end.

Definition login (user password : option string) (save : bool) : M unit :=
  emit Ev_login ;;
  s <- self ;;
  creds <-
    (if Py.truthy_opt_str user && Py.truthy_opt_str password then
       (if save then update (set_credentials user password) else ret tt) ;;
       ret (user, password)
     else if Py.truthy_opt_str (__username s) && Py.truthy_opt_str (__password s) then
       ret (__username s, __password s)
     else
       raise (new_ZabbixAPIException "No authentication information available.")) ;;
  now <- time ;;
  update (set_last_login (Some now)) ;;
  (* the password is encoded for the digest written to the log *)
  match snd creds with
  | Some p =>
      match encode_utf8 p with
      | inl e => raise (UnicodeError e)
      | inr _ => ret tt
      end
  | None => raise (AttributeError "'NoneType' object has no attribute 'encode'")
  end ;;
  let text o := match o with Some t => JStr t | None => JNull end in
  obj <- json_obj "user.login"
           (JDict [ ("user", text (fst creds)); ("password", text (snd creds)) ])
           false ;;
  token <- do_request obj ;;
  update (set_auth token).

Definition relogin : M unit :=
  emit Ev_relogin ;;
  try_except
    (update (set_auth JNull) ;;
     login None None true)
    (fun e =>
       if is_ZabbixAPIException e
       then Some (update (set_auth JNull) ;; raise e)
       else None).

Definition check_auth : M unit :=
  s <- self ;;
  if negb (logged_in s) then
    if Py.truthy_opt_num (relogin_interval s) && Py.truthy_opt_num (last_login s) then
      now <- time ;;
      match last_login s, relogin_interval s with
      | Some last, Some interval =>
          if interval <? now - last then relogin
          else raise (new_ZabbixAPIException "Not logged in.")
      | _, _ => raise (new_ZabbixAPIException "Not logged in.")
      end
    else raise (new_ZabbixAPIException "Not logged in.")
  else ret tt.

Definition api_version : M json :=
  obj <- json_obj "apiinfo.version" JNull false ;;
  do_request obj.

(** The test [str(ex).find('Not authorized while sending') >= 0]. *)
Definition not_authorized (ex : exn) : bool :=
  0 <=? Py.find (str_exn ex) "Not authorized while sending".

Definition call (method : string) (params : json) : M json :=
  start_time <- time ;;
  check_auth ;;
  try_finally
    (try_except
       (obj <- json_obj method params true ;;
        do_request obj)
       (fun ex =>
          if is_ZabbixAPIException ex then
            Some (enabled <- relogin_enabled ;;
                  if enabled && not_authorized ex then
                    relogin ;;
                    obj <- json_obj method params true ;;
                    do_request obj
                  else raise ex)
          else None))
    (time ;; ret tt).

End Client.

(** [ZabbixAPI()] with every argument at its default. *)
Definition ZabbixAPI_default : exn + ZabbixAPI :=
  __init__ (fun text => inr text) "http://localhost/zabbix" None None
    (Some 60) (Some 10).

(** ** Test doubles *)

Module Mock.

Definition clock (n : nat) : Z := 1000 + 100 * Z.of_nat n.

(** A transport that answers from a script, by the number of requests
    received before; it refuses connections once the script is spent. *)
Definition scripted (script : list reply) (earlier : list string) (_ : string)
  : reply :=
  nth (List.length earlier) script (Failed "Connection refused").

(** An encoder that keeps the method and the id of an envelope. *)
Definition json_dumps (j : json) : string :=
  match j with
  | JDict d =>
      match dict_get d "method", dict_get d "id" with
      | Some (JStr m), Some (JInt n) => m ++ "#" ++ Py.str_int n
      | _, _ => "?"
      end
  | _ => "?"
  end.

Definition not_authorized_error : json :=
  JDict [ ("error",
           JDict [ ("code", JInt (-32602));
                   ("message", JStr "Invalid params.");
                   ("data", JStr "Not authorized while sending request") ]) ].

(** A decoder that knows four bodies. *)
Definition json_loads (reads : string) : string + json :=
  if String.eqb reads "token" then inr (JDict [ ("result", JStr "0424bd59") ])
  else if String.eqb reads "hosts" then inr (JDict [ ("result", JList [ JStr "web01" ]) ])
  else if String.eqb reads "denied" then inr not_authorized_error
  else if String.eqb reads "{}" then inr (JDict [])
  else inl "No JSON object could be decoded".

Definition repr (_ : json) : string := "<object>".

(** A text holds a lone surrogate when the byte 237 is followed by a
    byte from 160 on; the codec refuses such a text. *)
Fixpoint has_surrogate (s : string) : bool :=
  match s with
  | String a ((String b _) as r) =>
      ((Nat.eqb (nat_of_ascii a) 237) && (Nat.leb 160 (nat_of_ascii b)))
      || has_surrogate r
  | _ => false
  end.

Definition encode_utf8 (s : string) : string + string :=
  if has_surrogate s
  then inl "'utf-8' codec can't encode character: surrogates not allowed"
  else inr s.

(** The text of the lone surrogate U+D800. *)
Definition surrogate : string :=
  String (ascii_of_nat 237) (String (ascii_of_nat 160)
    (String (ascii_of_nat 128) EmptyString)).

Definition ok (reads : string) : reply := Answered 200 "OK" reads.

Definition fresh (relogin_interval r_query_len : option Z) : ZabbixAPI :=
  match __init__ encode_utf8 "http://localhost/zabbix" None None
          relogin_interval r_query_len with
  | inr s => s
  | inl _ =>
      {| __username := None; __password := None; __auth := JNull;
         httpuser := None; httppasswd := None; _http_headers := [];
         _api_url := ""; id := 0; last_login := None; server := "";
         relogin_interval := None; r_query := {| maxlen := None; items := [] |};
         __dict__ := [] |}
  end.


Definition world0 : world := {| ticks := 0; history := [] |}.

(** A client that holds a token and persisted credentials. *)
Definition signed_in (relogin_interval r_query_len : option Z) : ZabbixAPI :=
  set_auth (JStr "stale")
    (set_credentials (Some "Admin") (Some "zabbix")
       (fresh relogin_interval r_query_len)).

(** A client that lost its token after an attempt at reading 100. *)
Definition lapsed (relogin_interval : option Z) : ZabbixAPI :=
  set_last_login (Some 100)
    (set_auth JNull (signed_in relogin_interval (Some 10))).

(** The server denies the first request, then accepts the login and
    answers the request. *)
Definition denied_once : list reply := [ ok "denied"; ok "token"; ok "hosts" ].

Definition call script :=
  call clock (scripted script) json_dumps json_loads repr encode_utf8.
Definition login script :=
  login clock (scripted script) json_dumps json_loads repr encode_utf8.
Definition relogin script :=
  relogin clock (scripted script) json_dumps json_loads repr encode_utf8.
Definition check_auth script :=
  check_auth clock (scripted script) json_dumps json_loads repr encode_utf8.
Definition do_request script := do_request (scripted script) json_loads repr.

End Mock.

(** Test texts are written with apostrophes standing for the double
    quotes of the Python literal. *)
Fixpoint dq (s : string) : string :=
  match s with
  | EmptyString => EmptyString
  | String c r => String (if Ascii.eqb c "'"%char then dquote else c) (dq r)
  end.

(** ** Vocabulary of the statements *)

(** A field as [json.dumps] writes it: the quoted key, a colon, a space
    and the quoted value. *)
Definition field (key v : string) : string :=
  field_open key ++ v ++ String dquote EmptyString.

(** A value without a double quote and without a newline. *)
Fixpoint plain_value (v : string) : bool :=
  match v with
  | EmptyString => true
  | String c r =>
      negb (Ascii.eqb c dquote) && negb (Ascii.eqb c newline) && plain_value r
  end.

(** In the text [a ++ rest], no position inside [a] begins with the
    opening of the field [key]. *)
Fixpoint no_field_start (key a rest : string) : bool :=
  match a with
  | EmptyString => true
  | String c a' =>
      negb (Py.startswith (field_open key) (a ++ rest))
      && no_field_start key a' rest
  end.





(** The value [do_request] obtains from a reply, if any: the answer has
    status 200, its body is not empty and decodes. *)
Definition decoded (json_loads : string -> string + json) (r : reply)
  : option json :=
  match r with
  | Failed _ | Unsendable _ | Unread _ _ _ => None
  | Answered code _ reads =>
      if negb (code =? 200) then None
      else if (String.length reads =? 0)%nat then None
      else match json_loads reads with
           | inl _ => None
           | inr jobj => Some jobj
           end
  end.

(** The log holds no more entries than its capacity allows. *)
Definition within_capacity (d : deque) : Prop :=
  match maxlen d with
  | Some n => (List.length (items d) <= n)%nat
  | None => True
  end.

(** The log holds the most recent bodies of [sent] (oldest first), as
    many as its capacity allows, in the order they were sent. *)
Definition most_recent (d : deque) (sent : list string) : Prop :=
  items d = match maxlen d with
            | Some n => last_n n sent
            | None => sent
            end.

Definition log_reflects (st : state) : Prop :=
  most_recent (r_query (fst st)) (rev (posted (history (snd st)))).

(** An interval is configured (a number other than zero), a previous
    login attempt exists (a reading other than zero), and the time
    elapsed since that attempt exceeds the interval. *)
Definition relogin_due (s : ZabbixAPI) (now : Z) : bool :=
  match relogin_interval s, last_login s with
  | Some interval, Some last =>
      negb (interval =? 0) && negb (last =? 0) && (interval <? now - last)
  | _, _ => false
  end.

(** The world after one more event. *)
Definition record (e : event) (w : world) : world :=
  {| ticks := ticks w; history := e :: history w |}.

(** The body of the [user.login] request: no token, the credentials as
    parameters, the current id. *)
Definition login_envelope (json_dumps : json -> string)
  (user password : option string) (n : Z) : string :=
  let text o := match o with Some t => JStr t | None => JNull end in
  json_dumps
    (JDict [ ("jsonrpc", JStr "2.0");
             ("method", JStr "user.login");
             ("params", JDict [ ("user", text user); ("password", text password) ]);
             ("auth", JNull);
             ("id", JInt n) ]).

(** The world and the state after one reading of the clock. *)
Definition tick_world (w : world) : world :=
  {| ticks := S (ticks w); history := history w |}.

Definition tick (st : state) : state := (fst st, tick_world (snd st)).

(** The last step of [login]: the token the request returns is stored,
    an exception passes through. *)
Definition store_token (r : outcome json * state) : outcome unit * state :=
  match r with
  | (Return token, st') => (Return tt, (set_auth token (fst st'), snd st'))
  | (Raise e, st') => (Raise e, st')
  end.

(** The body of the request of [call] for a client [s]: the method and
    the parameters of the call, the token and the id of [s]. *)
Definition call_envelope (json_dumps : json -> string)
  (method : string) (params : json) (s : ZabbixAPI) : string :=
  json_dumps
    (JDict [ ("jsonrpc", JStr "2.0");
             ("method", JStr method);
             ("params", match params with JNull => JDict [] | _ => params end);
             ("auth", __auth s);
             ("id", JInt (id s)) ]).

(** The request [call] sends, first and again after a relogin:
    [self.do_request(self.json_obj(method, params=params))]. *)
Definition request transport json_dumps json_loads repr
  (method : string) (params : json) : M json :=
  (obj <- json_obj json_dumps method params true ;;
   do_request transport json_loads repr obj)%py.

(** The log reflects the history after a step if it did before. *)
Definition keeps_log (a b : state) : Prop := log_reflects a -> log_reflects b.

(** A step that leaves the capacity of the log as it is. *)
Definition same_capacity (a b : state) : Prop :=
  maxlen (r_query (fst b)) = maxlen (r_query (fst a)).

(** The step of [login] that encodes the password [p] for the digest
    written to the log: the codec's error leaves the state [st1] of
    that moment, otherwise [login] goes on to [r]. *)
Definition after_encode {A} (encode_utf8 : string -> string + string)
  (p : option string) (st1 : state) (r : outcome A * state)
  : outcome A * state :=
  match p with
  | Some t =>
      match encode_utf8 t with
      | inl e => (Raise (UnicodeError e), st1)
      | inr _ => r
      end
  | None =>
      (Raise (AttributeError "'NoneType' object has no attribute 'encode'"), st1)
  end.

(** A step that adds no relogin to the history. *)
Definition same_relogins (a b : state) : Prop :=
  count_relogin (history (snd b)) = count_relogin (history (snd a)).

(** The claim as worded: the day form when [days > 0], the hour form in
    every other case. *)
Definition get_age_by_positive_days (now dt : Z) : Prop :=
  let delta := datetime_sub now dt in
  let h := seconds delta / 3600 in
  let m := (seconds delta mod 3600) / 60 in
  let s := (seconds delta mod 3600) mod 60 in
  (0 < days delta -> get_age now dt = fmt_dhm (days delta) h m)
  /\ (~ 0 < days delta -> get_age now dt = fmt_hms h m s).

(** The claim as worded: no transport exception raised by a request
    comes with a change of the id. *)
Definition id_kept_on_transport_failure : Prop :=
  forall transport json_loads repr body st m,
    fst (do_request transport json_loads repr body st)
    = Raise (ZabbixAPIException m) ->
    id (fst (snd (do_request transport json_loads repr body st))) = id (fst st).

(** [steps R c]: every run of [c] takes a state to one related by [R],
    whether it returns or raises. *)
Definition steps {A} (R : state -> state -> Prop) (c : M A) : Prop :=
  forall st, R st (snd (c st)).

(** [raises Q c]: every exception that escapes [c] satisfies [Q]. *)
Definition raises {A} (Q : exn -> Prop) (c : M A) : Prop :=
  forall st e, fst (c st) = Raise e -> Q e.

(** ** Access by dot notation *)

(** [ZabbixAPISubClass.__getattr__]: the API method that the attribute
    [name] of the wrapper stands for; the closure it returns calls
    [parent.call] with that method. *)
Definition sub_getattr (o : ZabbixAPISubClass) (name : string) : exn + string :=
  if Py.startswith "_" name then
    inl (AttributeError
           ("<class 'zabbix_api.ZabbixAPISubClass'> object has no attribute '"
            ++ name ++ "'"))
  else
    let name :=
      if String.eqb (prefix o) "configuration" && String.eqb name "import_"
      then "import" else name in
    inr (prefix o ++ "." ++ name).

(** The names ordinary lookup finds on a wrapper, before its
    [__getattr__] is consulted: the two attributes bound by its
    [__init__].  The others, defined in the class or inherited from
    [object], begin with two underscores. *)
Definition ZabbixAPISubClass_names : list string := [ "prefix"; "parent" ].

(** [getattr(getattr(self, namespace), name)(params)].  There is no
    answer here for a namespace that ordinary lookup finds on the
    client (the names of [ZabbixAPI_names], and the names with two
    leading underscores, which [object] may define), nor for a name
    with two leading underscores on the wrapper.  On the wrapper
    [prefix] is a [str] and [parent] the client, and calling either
    raises [TypeError]; every other name goes to [__getattr__]. *)
Definition dot_call clock transport json_dumps json_loads repr encode_utf8
  (namespace name : string) (params : json) : option (M json) :=
  if existsb (String.eqb namespace) ZabbixAPI_names
     || Py.startswith "__" namespace || Py.startswith "__" name
  then None
  else
    Some (o <- getattr namespace ;;
          if existsb (String.eqb name) ZabbixAPISubClass_names then
            raise TypeError
          else
            match sub_getattr o name with
            | inl e => raise e
            | inr method =>
                call clock transport json_dumps json_loads repr encode_utf8
                  method params
            end)%py.

(** The requests [bodies] made one after the other, whatever each of
    them returns or raises. *)
Fixpoint do_requests transport json_loads repr (bodies : list string)
  (st : state) : state :=
  match bodies with
  | [] => st
  | body :: rest =>
      do_requests transport json_loads repr rest
        (snd (do_request transport json_loads repr body st))
  end.

(** The body of the [apiinfo.version] request. *)
Definition version_envelope (json_dumps : json -> string) (n : Z) : string :=
  json_dumps
    (JDict [ ("jsonrpc", JStr "2.0");
             ("method", JStr "apiinfo.version");
             ("params", JDict []);
             ("auth", JNull);
             ("id", JInt n) ]).

(** A step adds at most as much to the id as it posts requests, and
    never lowers the id. *)
Definition id_follows_posts (a b : state) : Prop :=
  id (fst a) <= id (fst b)
  /\ id (fst b) - id (fst a)
     <= Z.of_nat (count_post (history (snd b)))
        - Z.of_nat (count_post (history (snd a))).

(** The text [sub] occurs in [s]. *)
Definition occurs (sub s : string) : Prop := exists a b, s = a ++ sub ++ b.

(** The credentials [login] works with: the ones given when both are
    given, the persisted ones otherwise, none when neither pair is
    complete. *)
Definition credentials_for (user password : option string) (s : ZabbixAPI)
  : option (option string * option string) :=
  if Py.truthy_opt_str user && Py.truthy_opt_str password then
    Some (user, password)
  else if Py.truthy_opt_str (__username s) && Py.truthy_opt_str (__password s) then
    Some (__username s, __password s)
  else None.

(** Every name bound on the instance by [__getattr__] is bound to the
    wrapper of that name, and none starts with an underscore. *)
Definition wrappers_ok (s : ZabbixAPI) : bool :=
  forallb (fun kv => String.eqb (prefix (snd kv)) (fst kv)
                     && negb (Py.startswith "_" (fst kv)))
          (__dict__ s).


(** * Properties *)

(** ** Severity labels *)

Lemma get_severity_valid (prio : Z) :
  0 <= prio <= 5 ->
  nth_error TRIGGER_SEVERITY (Z.to_nat prio) = Some (get_severity prio).
Proof.
  intros H.
  assert (E : prio = 0 \/ prio = 1 \/ prio = 2 \/ prio = 3 \/ prio = 4 \/ prio = 5)
    by lia.
  repeat (destruct E as [-> | E]; [reflexivity |]); subst; reflexivity.
Qed.

Lemma get_severity_far (prio : Z) :
  prio < -6 \/ 5 < prio -> get_severity prio = "unknown".
Proof.
  intros H. unfold get_severity, Py.getitem.
  change (Z.of_nat (List.length TRIGGER_SEVERITY)) with 6.
  destruct (Z.leb_spec 0 prio), (Z.ltb_spec prio 6),
           (Z.leb_spec (Z.opp 6) prio), (Z.ltb_spec prio 0);
    cbn [andb]; try reflexivity; lia.
Qed.

(** C7: the tuple is indexed with Python's subscript, so an id from -6
    to -1 selects a label from the end instead of raising [IndexError];
    at -1 the answer is the last label, not the sentinel. *)
Theorem get_severity_negative_index :
  get_severity (-1) = "disaster" /\ get_severity (-1) <> "unknown"
  /\ get_severity (-6) = "not_classified".
Proof.
  repeat split; try reflexivity. discriminate.
Qed.

(** ** Age formatting *)

(** C10, counterexample: for a datetime one second ahead of the clock
    the difference has [days = -1], and the day form is produced. *)
Lemma get_age_future_datetime :
  get_age 0 1000000 = "-1d 23h 59m" /\ ~ get_age_by_positive_days 0 1000000.
Proof.
  split; [reflexivity |].
  intros [_ H]. assert (N : ~ 0 < days (datetime_sub 0 1000000)) by (cbv; discriminate).
  specialize (H N). vm_compute in H. discriminate H.
Qed.

(** C10, amended: the day form is chosen exactly when [days] is not
    zero, the hour form when it is zero; ninety minutes give the hour
    form and one day, two hours and five minutes the day form. *)
Theorem get_age_format (now dt : Z) :
  let delta := datetime_sub now dt in
  let h := seconds delta / 3600 in
  let m := (seconds delta mod 3600) / 60 in
  let s := (seconds delta mod 3600) mod 60 in
  (days delta <> 0 -> get_age now dt = fmt_dhm (days delta) h m)
  /\ (days delta = 0 -> get_age now dt = fmt_hms h m s)
  /\ get_age (dt + 90 * 60 * 1000000) dt = "1h 30m 0s"
  /\ get_age (dt + ((24 + 2) * 3600 + 5 * 60) * 1000000) dt = "1d 2h 5m".
Proof.
  cbv zeta. unfold get_age, Py.divmod.
  repeat split.
  - intros H. apply Z.eqb_neq in H. now rewrite H.
  - intros H. apply Z.eqb_eq in H. now rewrite H.
  - unfold datetime_sub.
    replace (dt + 90 * 60 * 1000000 - dt) with 5400000000 by lia. reflexivity.
  - unfold datetime_sub.
    replace (dt + ((24 + 2) * 3600 + 5 * 60) * 1000000 - dt) with 93900000000 by lia.
    reflexivity.
Qed.

Lemma get_age_format_witness :
  days (datetime_sub 200000000000 0) <> 0
  /\ get_age 200000000000 0 = "2d 7h 33m".
Proof.
  split; [vm_compute; discriminate |].
  rewrite (proj1 (get_age_format 200000000000 0)); [reflexivity |].
  vm_compute; discriminate.
Defined.

(** ** Redaction *)

Lemma string_app_assoc (a b c : string) : (a ++ b) ++ c = a ++ b ++ c.
Proof. induction a as [| x a IH]; cbn; [reflexivity | now rewrite IH]. Qed.

Lemma string_length_app (a b : string) :
  String.length (a ++ b) = (String.length a + String.length b)%nat.
Proof. induction a as [| x a IH]; cbn; [reflexivity | now rewrite IH]. Qed.

Lemma startswith_app (p s : string) : Py.startswith p (p ++ s) = true.
Proof.
  induction p as [| x p IH]; cbn; [reflexivity |].
  now rewrite Ascii.eqb_refl, IH.
Qed.

Lemma drop_app (p s : string) : Py.drop (String.length p) (p ++ s) = s.
Proof. induction p as [| x p IH]; cbn; [now destruct s | exact IH]. Qed.

Lemma lazy_to_quote_plain (v b : string) :
  plain_value v = true ->
  lazy_to_quote (v ++ String dquote b) = Some (S (String.length v)).
Proof.
  induction v as [| c v IH]; cbn [plain_value append lazy_to_quote String.length].
  - intros _. now rewrite Ascii.eqb_refl.
  - intros H. apply andb_prop in H as [H Hv]. apply andb_prop in H as [Hq Hn].
    apply negb_true_iff in Hq, Hn. rewrite Hq, Hn, (IH Hv). reflexivity.
Qed.

Lemma re_sub_skip (key m b : string) :
  re_sub key (String.length m) (m ++ b) = re_sub key O b.
Proof.
  induction m as [| c m IH]; cbn [String.length append].
  - destruct b; reflexivity.
  - cbn [re_sub]. exact IH.
Qed.

Lemma field_match_field (key v b : string) :
  plain_value v = true ->
  field_match key (field key v ++ b)
  = Some (String.length (field_open key) + S (String.length v))%nat.
Proof.
  intros Hv. unfold field_match, field.
  rewrite !string_app_assoc, startswith_app, drop_app.
  cbn [append]. rewrite (lazy_to_quote_plain v b Hv). reflexivity.
Qed.

Lemma re_sub_field (key v b : string) :
  plain_value v = true ->
  re_sub key O (field key v ++ b) = field_masked key ++ re_sub key O b.
Proof.
  intros Hv.
  pose proof (field_match_field key v b Hv) as Hm.
  set (tail := key ++ String dquote (": " ++ String dquote EmptyString)).
  assert (Ho : field_open key = String dquote tail) by reflexivity.
  assert (Hs : field key v ++ b
               = String dquote ((tail ++ v ++ String dquote EmptyString) ++ b)).
  { unfold field. rewrite Ho. cbn [append]. now rewrite !string_app_assoc. }
  rewrite Hs in Hm |- *. cbn [re_sub]. rewrite Hm.
  replace (Nat.pred (String.length (field_open key) + S (String.length v)))
    with (String.length (tail ++ v ++ String dquote EmptyString)).
  - now rewrite re_sub_skip.
  - rewrite Ho, !string_length_app. cbn [String.length]. lia.
Qed.

Lemma re_sub_prefix (key a rest : string) :
  no_field_start key a rest = true ->
  re_sub key O (a ++ rest) = a ++ re_sub key O rest.
Proof.
  induction a as [| c a IH]; cbn [no_field_start append]; [reflexivity |].
  intros H. apply andb_prop in H as [H Ha]. apply negb_true_iff in H.
  cbn [re_sub]. unfold field_match. cbn [append] in H. rewrite H.
  now rewrite (IH Ha).
Qed.

(** ** The bounded log *)

Lemma last_n_length {A} (n : nat) (l : list A) :
  (List.length (last_n n l) <= n)%nat.
Proof. unfold last_n. rewrite length_skipn. lia. Qed.

Lemma last_n_snoc {A} (n : nat) (l : list A) (x : A) :
  last_n (S n) (l ++ [x]) = (last_n n l ++ [x])%list.
Proof.
  unfold last_n. rewrite length_app, skipn_app. cbn [List.length].
  replace (List.length l + 1 - S n)%nat with (List.length l - n)%nat by lia.
  replace (List.length l - n - List.length l)%nat with O by lia.
  reflexivity.
Qed.

Lemma last_n_zero {A} (l : list A) : last_n 0 l = [].
Proof. unfold last_n. rewrite Nat.sub_0_r. apply skipn_all. Qed.

Lemma last_n_idem {A} (n m : nat) (l : list A) :
  (n <= m)%nat -> last_n n (last_n m l) = last_n n l.
Proof.
  intros H. unfold last_n. rewrite length_skipn, skipn_skipn. f_equal. lia.
Qed.

Lemma last_n_append_trim {A} (n : nat) (l : list A) (x : A) :
  last_n n (last_n n l ++ [x]) = last_n n (l ++ [x]).
Proof.
  destruct n as [| n]; [now rewrite !last_n_zero |].
  rewrite !last_n_snoc. f_equal. apply last_n_idem. lia.
Qed.

Lemma deque_append_recent (d : deque) (sent : list string) (x : string) :
  most_recent d sent -> most_recent (deque_append d x) (sent ++ [x]).
Proof.
  unfold most_recent, deque_append. cbn [maxlen items]. intros ->.
  destruct (maxlen d) as [n |]; [apply last_n_append_trim | reflexivity].
Qed.

Lemma most_recent_within (d : deque) (sent : list string) :
  most_recent d sent -> within_capacity d.
Proof.
  unfold most_recent, within_capacity. intros ->.
  destruct (maxlen d); [apply last_n_length | exact I].
Qed.

Lemma deque_append_last (d : deque) (x : string) :
  maxlen d <> Some O ->
  exists older, items (deque_append d x) = (older ++ [x])%list.
Proof.
  unfold deque_append. cbn [items]. intros H.
  destruct (maxlen d) as [[| n] |]; [contradiction | |]; eexists.
  - apply last_n_snoc.
  - reflexivity.
Qed.

(** ** Reasoning about computations *)

Section Rules.

Context {R : state -> state -> Prop}.
Hypothesis R_refl : forall st, R st st.
Hypothesis R_trans : forall a b c, R a b -> R b c -> R a c.

Lemma steps_ret {A} (a : A) : steps R (ret a).
Proof. intros st. apply R_refl. Qed.

Lemma steps_raise {A} (e : exn) : steps R (raise (A := A) e).
Proof. intros st. apply R_refl. Qed.

Lemma steps_self : steps R self.
Proof. intros st. apply R_refl. Qed.

Lemma steps_bind {A B} (c : M A) (k : A -> M B) :
  steps R c -> (forall a, steps R (k a)) -> steps R (bind c k).
Proof.
  intros Hc Hk st. unfold bind. specialize (Hc st).
  destruct (c st) as [[a | e] st']; cbn in *; [| exact Hc].
  eapply R_trans; [exact Hc | apply Hk].
Qed.

Lemma steps_try_except {A} (body : M A) (handler : exn -> option (M A)) :
  steps R body ->
  (forall e h, handler e = Some h -> steps R h) ->
  steps R (try_except body handler).
Proof.
  intros Hb Hh st. unfold try_except. specialize (Hb st).
  destruct (body st) as [[a | e] st']; cbn in *; [exact Hb |].
  destruct (handler e) as [h |] eqn:E; [| exact Hb].
  eapply R_trans; [exact Hb | exact (Hh e h E st')].
Qed.

Lemma steps_try_finally {A} (body : M A) (final : M unit) :
  steps R body -> steps R final -> steps R (try_finally body final).
Proof.
  intros Hb Hf st. unfold try_finally. specialize (Hb st).
  destruct (body st) as [r st']. specialize (Hf st').
  destruct (final st') as [[u | e] st'']; cbn in *;
    eapply R_trans; eauto.
Qed.

End Rules.

Section RaiseRules.

Context {Q : exn -> Prop}.



Lemma raises_total {A} (c : M A) :
  (forall st, exists a, fst (c st) = Return a) -> raises Q c.
Proof. intros H st e E. destruct (H st) as [a Ha]. congruence. Qed.




End RaiseRules.

(** ** The session *)

Section Session.

Variable clock : nat -> Z.
Variable transport : list string -> string -> reply.
Variable json_dumps : json -> string.
Variable json_loads : string -> string + json.
Variable repr : json -> string.
Variable encode_utf8 : string -> string + string.

Abbreviation time := (time clock).
Abbreviation json_obj := (json_obj json_dumps).
Abbreviation do_request := (do_request transport json_loads repr).
Abbreviation login :=
  (login clock transport json_dumps json_loads repr encode_utf8).
Abbreviation relogin :=
  (relogin clock transport json_dumps json_loads repr encode_utf8).
Abbreviation check_auth :=
  (check_auth clock transport json_dumps json_loads repr encode_utf8).
Abbreviation call :=
  (call clock transport json_dumps json_loads repr encode_utf8).

(** *** A relation kept by the primitive steps is kept by the methods *)

Section Invariance.

Variable R : state -> state -> Prop.
Hypothesis R_refl : forall st, R st st.
Hypothesis R_trans : forall a b c, R a b -> R b c -> R a c.
Hypothesis R_time : steps R time.
Hypothesis R_login : steps R (emit Ev_login).
Hypothesis R_relogin : steps R (emit Ev_relogin).
Hypothesis R_credentials : forall u p, steps R (update (set_credentials u p)).
Hypothesis R_last_login : forall t, steps R (update (set_last_login t)).
Hypothesis R_auth : forall a, steps R (update (set_auth a)).
Hypothesis R_attr : forall n o, steps R (update (set_attr n o)).
Hypothesis R_request : forall body, steps R (do_request body).

Ltac steps_go :=
  repeat match goal with
    | |- steps _ (ret _) => apply (steps_ret R_refl)
    | |- steps _ (raise _) => apply (steps_raise R_refl)
    | |- steps _ self => apply (steps_self R_refl)
    | |- steps _ (bind _ _) => apply (steps_bind R_trans); [ | intros ? ]
    | |- steps _ (try_finally _ _) => apply (steps_try_finally R_trans)
    | |- steps _ (update _) =>
        first [ apply R_credentials | apply R_last_login
              | apply R_auth | apply R_attr ]
    | |- steps _ (if ?b then _ else _) => destruct b
    | |- steps _ (match ?x with _ => _ end) => destruct x
    | |- steps _ _ => first [ assumption | apply R_request ]
    end.

Lemma json_obj_steps method params auth : steps R (json_obj method params auth).
Proof. unfold json_obj. steps_go. Qed.

Lemma login_steps user password save : steps R (login user password save).
Proof. unfold login. steps_go. Qed.

Lemma relogin_steps : steps R relogin.
Proof.
  unfold relogin. apply (steps_bind R_trans); [assumption | intros _].
  apply (steps_try_except R_trans).
  - steps_go. apply login_steps.
  - intros e h E. destruct (is_ZabbixAPIException e); inversion E; subst.
    steps_go.
Qed.

Lemma check_auth_steps : steps R check_auth.
Proof. unfold check_auth. steps_go; apply relogin_steps. Qed.

Lemma relogin_enabled_steps : steps R relogin_enabled.
Proof. unfold relogin_enabled, getattr, __getattr__. steps_go. Qed.

Lemma call_steps method params : steps R (call method params).
Proof.
  unfold call.
  apply (steps_bind R_trans); [assumption | intros _].
  apply (steps_bind R_trans); [apply check_auth_steps | intros _].
  apply (steps_try_finally R_trans); [| steps_go].
  apply (steps_try_except R_trans).
  - steps_go.
  - intros e h E. destruct (is_ZabbixAPIException e); inversion E; subst.
    apply (steps_bind R_trans); [apply relogin_enabled_steps | intros en].
    destruct (en && not_authorized e); steps_go;
      first [apply relogin_steps | apply json_obj_steps].
Qed.

End Invariance.

(** *** One request *)

Ltac request_cases :=
  unfold do_request, bind, update, opener_open, raise, ret; cbn [fst snd];
  repeat match goal with
    | |- context [match ?x with _ => _ end] => destruct x eqn:?
    end;
  cbn [fst snd].

Lemma do_request_world body st :
  snd (snd (do_request body st)) = record (Ev_post body) (snd st).
Proof. destruct st as [s w]. request_cases; reflexivity. Qed.

Lemma do_request_r_query body st :
  r_query (fst (snd (do_request body st)))
  = deque_append (r_query (fst st)) body.
Proof. destruct st as [s w]. request_cases; reflexivity. Qed.

(** Apart from the log and the id, a request leaves the client as it
    was. *)
Lemma do_request_frame body st :
  let s := fst st in
  let s' := fst (snd (do_request body st)) in
  __username s' = __username s /\ __password s' = __password s
  /\ __auth s' = __auth s /\ last_login s' = last_login s
  /\ relogin_interval s' = relogin_interval s /\ __dict__ s' = __dict__ s.
Proof. destruct st as [s w]. request_cases; repeat split; reflexivity. Qed.

Lemma do_request_id body st :
  match decoded json_loads (transport (posted (history (snd st))) body) with
  | Some _ => id (fst (snd (do_request body st))) = id (fst st) + 1
  | None => id (fst (snd (do_request body st))) = id (fst st)
  end.
Proof.
  destruct st as [s w]. unfold decoded.
  unfold do_request, bind, update, opener_open, raise, ret; cbn [fst snd].
  destruct (transport (posted (history w)) body)
    as [e | code reason reads | e | code reason e]; try reflexivity.
  - destruct (negb (code =? 200)); [reflexivity |].
    destruct (String.length reads =? 0)%nat; [reflexivity |].
    destruct (json_loads reads) as [e | jobj]; [reflexivity |].
    request_cases; reflexivity.
  - destruct (negb (code =? 200)); reflexivity.
Qed.

(** What a request raises when no reply is decoded. *)
Lemma do_request_undecoded body st :
  decoded json_loads (transport (posted (history (snd st))) body) = None ->
  match transport (posted (history (snd st))) body with
  | Unsendable e => fst (do_request body st) = Raise (ValueError e)
  | Unread code _ e =>
      if code =? 200 then fst (do_request body st) = Raise (OtherError e)
      else exists m, fst (do_request body st) = Raise (ZabbixAPIException m)
  | _ => exists m, fst (do_request body st) = Raise (ZabbixAPIException m)
  end.
Proof.
  destruct st as [s w]. unfold decoded.
  unfold do_request, bind, update, opener_open, raise, ret; cbn [fst snd].
  destruct (transport (posted (history w)) body)
    as [e | code reason reads | e | code reason e]; intros H.
  - eexists; reflexivity.
  - destruct (negb (code =? 200)); [eexists; reflexivity |].
    destruct (String.length reads =? 0)%nat; [eexists; reflexivity |].
    destruct (json_loads reads) as [e | jobj]; [eexists; reflexivity |].
    discriminate H.
  - reflexivity.
  - destruct (code =? 200); cbn [negb]; [reflexivity | eexists; reflexivity].
Qed.

(** What a request makes of a decoded reply. *)
Lemma do_request_decoded body st jobj :
  decoded json_loads (transport (posted (history (snd st))) body) = Some jobj ->
  fst (do_request body st)
  = match jobj with
    | JDict d =>
        match dict_get d "error" with
        | Some (JDict error) =>
            match dict_get error "self" with
            | Some _ => Raise TypeError
            | None => Raise (new_ZabbixAPIError repr error)
            end
        | _ =>
            match dict_get d "result" with
            | Some result => Return result
            | None => Raise (ZabbixAPIException "Missing result in API response")
            end
        end
    | _ => Raise TypeError
    end.
Proof.
  destruct st as [s w]. unfold decoded.
  unfold do_request, bind, update, opener_open, raise, ret; cbn [fst snd].
  destruct (transport (posted (history w)) body)
    as [e | code reason reads | e | code reason e]; try discriminate.
  destruct (negb (code =? 200)); [discriminate |].
  destruct (String.length reads =? 0)%nat; [discriminate |].
  destruct (json_loads reads) as [e | j]; [discriminate |].
  intros H. inversion H; subst j.
  repeat match goal with
    | |- context [match ?x with _ => _ end] => destruct x eqn:?
    end; reflexivity.
Qed.

Lemma do_request_answer body st :
  (exists v, fst (do_request body st) = Return v)
  \/ (exists error m, fst (do_request body st) = Raise (ZabbixAPIError error m)) ->
  decoded json_loads (transport (posted (history (snd st))) body) <> None.
Proof.
  intros H N. pose proof (do_request_undecoded body st N) as U.
  assert (exists e, fst (do_request body st) = Raise e
                    /\ forall error m, e <> ZabbixAPIError error m) as [e [E K]].
  { destruct (transport (posted (history (snd st))) body)
      as [e | code reason reads | e | code reason e].
    - destruct U as [m U]. eexists; split; [exact U | discriminate].
    - destruct U as [m U]. eexists; split; [exact U | discriminate].
    - eexists; split; [exact U | discriminate].
    - destruct (code =? 200).
      + eexists; split; [exact U | discriminate].
      + destruct U as [m U]. eexists; split; [exact U | discriminate]. }
  destruct H as [[v H] | [er [m' H]]]; rewrite E in H.
  - discriminate H.
  - inversion H. eapply K; eassumption.
Qed.

(** *** The request id *)

Lemma init_id encode server user passwd interval len s :
  __init__ encode server user passwd interval len = inr s -> id s = 0.
Proof.
  unfold __init__. destruct (deque_new len) as [e | q]; [discriminate |].
  destruct (_ || _); [| discriminate].
  destruct (init_headers encode user passwd); [discriminate |].
  intros H. inversion H. reflexivity.
Qed.

Lemma call_id_monotone method params st :
  id (fst st) <= id (fst (snd (call method params st))).
Proof.
  apply (call_steps (fun a b => id (fst a) <= id (fst b))).
  - intros ?; lia.
  - intros a b c; lia.
  - intros ?; cbn; lia.
  - intros ?; cbn; lia.
  - intros ?; cbn; lia.
  - intros u p ?; cbn; lia.
  - intros t ?; cbn; lia.
  - intros a ?; cbn; lia.
  - intros n o ?; cbn; lia.
  - intros body st'. pose proof (do_request_id body st') as H.
    destruct (decoded _ _); lia.
Qed.

(** C2, amended: a new client has id 0.  A request adds exactly one to
    the id when its reply is decoded (status 200, a body that is not
    empty and that decodes), whatever follows: the result returned,
    the structured error raised, the transport exception for a missing
    result raised for an object with neither, or [TypeError] raised
    for a reply that is not an object or whose error object has a key
    [self].  It leaves the id as it is when no reply is decoded: then
    it raises the transport exception, or lets escape the exception
    the HTTP library raised when building the request or reading the
    response.  A request that returns a result or raises the
    structured error has added one, and [call] never lowers the id. *)
Theorem request_id_counts_decoded_replies :
  (forall encode server user passwd interval len s,
      __init__ encode server user passwd interval len = inr s -> id s = 0)
  /\ (forall body st jobj,
         decoded json_loads (transport (posted (history (snd st))) body)
         = Some jobj ->
         id (fst (snd (do_request body st))) = id (fst st) + 1
         /\ fst (do_request body st)
            = match jobj with
              | JDict d =>
                  match dict_get d "error" with
                  | Some (JDict error) =>
                      match dict_get error "self" with
                      | Some _ => Raise TypeError
                      | None => Raise (new_ZabbixAPIError repr error)
                      end
                  | _ =>
                      match dict_get d "result" with
                      | Some result => Return result
                      | None =>
                          Raise (ZabbixAPIException "Missing result in API response")
                      end
                  end
              | _ => Raise TypeError
              end)
  /\ (forall body st,
         decoded json_loads (transport (posted (history (snd st))) body) = None ->
         id (fst (snd (do_request body st))) = id (fst st)
         /\ match transport (posted (history (snd st))) body with
            | Unsendable e => fst (do_request body st) = Raise (ValueError e)
            | Unread code _ e =>
                if code =? 200
                then fst (do_request body st) = Raise (OtherError e)
                else exists m,
                    fst (do_request body st) = Raise (ZabbixAPIException m)
            | _ => exists m, fst (do_request body st) = Raise (ZabbixAPIException m)
            end)
  /\ (forall body st,
         (exists v, fst (do_request body st) = Return v)
         \/ (exists error m,
                fst (do_request body st) = Raise (ZabbixAPIError error m)) ->
         id (fst (snd (do_request body st))) = id (fst st) + 1)
  /\ (forall method params st,
         id (fst st) <= id (fst (snd (call method params st)))).
Proof.
  split; [exact init_id |].
  split.
  { intros body st jobj D. split; [| exact (do_request_decoded body st jobj D)].
    pose proof (do_request_id body st) as E. now rewrite D in E. }
  split.
  { intros body st D. split; [| exact (do_request_undecoded body st D)].
    pose proof (do_request_id body st) as E. now rewrite D in E. }
  split; [| exact call_id_monotone].
  intros body st H. apply do_request_answer in H.
  pose proof (do_request_id body st) as E.
  destruct (decoded _ _); [exact E | contradiction].
Qed.

(** *** The recent-query log *)

Lemma do_request_keeps_log body : steps keeps_log (do_request body).
Proof.
  intros st H. unfold log_reflects.
  rewrite do_request_r_query, do_request_world. cbn [record history posted flat_map].
  cbn [rev app]. apply deque_append_recent. exact H.
Qed.

Ltac log_frame :=
  unfold steps, keeps_log, log_reflects; intros; cbn in *; auto.

Lemma login_keeps_log user password save :
  steps keeps_log (login user password save).
Proof.
  apply login_steps; try exact do_request_keeps_log; log_frame.
Qed.

Lemma call_keeps_log method params : steps keeps_log (call method params).
Proof.
  apply call_steps; try exact do_request_keeps_log; log_frame.
Qed.

Lemma init_r_query encode server user passwd interval len s :
  __init__ encode server user passwd interval len = inr s ->
  r_query s = {| maxlen := option_map Z.to_nat len; items := [] |}.
Proof.
  unfold __init__, deque_new. intros H.
  destruct len as [z |];
    [destruct (_ || _); [discriminate |]; destruct (z <? 0); [discriminate |] |];
    destruct (_ || _); try discriminate;
    destruct (init_headers encode user passwd); try discriminate;
    inversion H; reflexivity.
Qed.

Lemma init_log encode server user passwd interval len s w :
  __init__ encode server user passwd interval len = inr s -> history w = [] ->
  log_reflects (s, w) /\ items (r_query s) = [].
Proof.
  intros H Hw. unfold log_reflects, most_recent. cbn [fst snd].
  rewrite (init_r_query _ _ _ _ _ _ _ H), Hw. cbn [posted flat_map rev items maxlen].
  split; [| reflexivity].
  destruct (option_map Z.to_nat len) as [n |]; [| reflexivity].
  unfold last_n. now rewrite skipn_nil.
Qed.

Lemma do_request_same_capacity body : steps same_capacity (do_request body).
Proof. intros st. unfold same_capacity. now rewrite do_request_r_query. Qed.

Ltac capacity_frame :=
  unfold steps, same_capacity; intros; cbn in *; congruence.

Lemma login_same_capacity user password save :
  steps same_capacity (login user password save).
Proof.
  apply login_steps; try exact do_request_same_capacity; capacity_frame.
Qed.

Lemma call_same_capacity method params :
  steps same_capacity (call method params).
Proof.
  apply call_steps; try exact do_request_same_capacity; capacity_frame.
Qed.

(** C6: the capacity of the log of a new client is the [r_query_len]
    given to [__init__] (no bound for [None]), 10 with the default
    arguments, and [call], [login] and a request leave that capacity
    as it is.  The log of a new client is empty and reflects the empty
    history; [call], [login] and a request on its own keep the log
    equal to the most recent bodies posted, in the order posted and as
    many as the capacity allows, so that it never holds more than its
    capacity; and a request appends its body whatever the reply is, so
    that under a capacity other than zero the body is the newest entry
    even when the request raises. *)
Theorem recent_query_reflects_requests :
  (exists s, ZabbixAPI_default = inr s
             /\ maxlen (r_query s) = Some 10%nat /\ recent_query s = [])
  /\ (forall encode server user passwd interval len s,
         __init__ encode server user passwd interval len = inr s ->
         maxlen (r_query s) = option_map Z.to_nat len
         /\ recent_query s = []
         /\ forall w, history w = [] -> log_reflects (s, w))
  /\ (forall method params st,
         maxlen (r_query (fst (snd (call method params st))))
         = maxlen (r_query (fst st)))
  /\ (forall user password save st,
         maxlen (r_query (fst (snd (login user password save st))))
         = maxlen (r_query (fst st)))
  /\ (forall body st,
         maxlen (r_query (fst (snd (do_request body st))))
         = maxlen (r_query (fst st)))
  /\ (forall method params st,
         log_reflects st -> log_reflects (snd (call method params st)))
  /\ (forall user password save st,
         log_reflects st -> log_reflects (snd (login user password save st)))
  /\ (forall body st,
         log_reflects st -> log_reflects (snd (do_request body st)))
  /\ (forall st, log_reflects st -> within_capacity (r_query (fst st)))
  /\ (forall body st,
         r_query (fst (snd (do_request body st)))
         = deque_append (r_query (fst st)) body
         /\ snd (snd (do_request body st)) = record (Ev_post body) (snd st))
  /\ (forall body st,
         maxlen (r_query (fst st)) <> Some O ->
         exists older,
           recent_query (fst (snd (do_request body st)))
           = (older ++ [body])%list).
Proof.
  split; [eexists; repeat split; reflexivity |].
  split.
  { intros encode server user passwd interval len s H.
    rewrite (init_r_query _ _ _ _ _ _ _ H). unfold recent_query.
    rewrite (init_r_query _ _ _ _ _ _ _ H).
    split; [reflexivity | split; [reflexivity |]].
    intros w Hw. exact (proj1 (init_log _ _ _ _ _ _ _ _ H Hw)). }
  split; [intros method params st; apply call_same_capacity |].
  split; [intros user password save st; apply login_same_capacity |].
  split; [intros body st; apply do_request_same_capacity |].
  split; [intros method params st; apply call_keeps_log |].
  split; [intros user password save st; apply login_keeps_log |].
  split; [intros body st; apply do_request_keeps_log |].
  split; [intros st H; exact (most_recent_within _ _ H) |].
  split; [intros body st; split;
          [apply do_request_r_query | apply do_request_world] |].
  intros body st H. unfold recent_query. rewrite do_request_r_query.
  now apply deque_append_last.
Qed.

(** *** Login *)

Lemma login_run user password save st :
  let s := fst st in
  let w := record Ev_login (snd st) in
  let go u p s' :=
    let st1 := tick (set_last_login (Some (clock (ticks w))) s', w) in
    after_encode encode_utf8 p st1
      (store_token (do_request (login_envelope json_dumps u p (id s')) st1)) in
  login user password save st =
    if Py.truthy_opt_str user && Py.truthy_opt_str password then
      go user password (if save then set_credentials user password s else s)
    else if Py.truthy_opt_str (__username s) && Py.truthy_opt_str (__password s) then
      go (__username s) (__password s) s
    else
      (Raise (ZabbixAPIException "No authentication information available."),
       (s, w)).
Proof.
  destruct st as [s w]. cbv zeta.
  unfold login, after_encode, bind, emit, self; cbn [fst snd].
  destruct (Py.truthy_opt_str user && Py.truthy_opt_str password);
    [destruct save; destruct password as [t |]
    | destruct (Py.truthy_opt_str (__username s) && Py.truthy_opt_str (__password s));
      [destruct (__password s) as [t |] eqn:P |]];
    unfold update, ret, time, raise; cbn [fst snd];
    try destruct (encode_utf8 t); reflexivity.
Qed.

(** What the last steps of a login leave behind, in every outcome. *)
Lemma login_go body p st1 :
  let r := after_encode encode_utf8 p st1 (store_token (do_request body st1)) in
  last_login (fst (snd r)) = last_login (fst st1)
  /\ (forall e, fst r = Raise e -> __auth (fst (snd r)) = __auth (fst st1))
  /\ (forall t bytes, p = Some t -> encode_utf8 t = inr bytes ->
      r = store_token (do_request body st1)
      /\ snd (snd r) = record (Ev_post body) (snd st1))
  /\ (forall t e, p = Some t -> encode_utf8 t = inl e ->
      r = (Raise (UnicodeError e), st1))
  /\ (count_post (history (snd (snd r))) <= S (count_post (history (snd st1))))%nat.
Proof.
  cbv zeta.
  assert (G : let r := store_token (do_request body st1) in
              last_login (fst (snd r)) = last_login (fst st1)
              /\ (forall e, fst r = Raise e ->
                            __auth (fst (snd r)) = __auth (fst st1))
              /\ snd (snd r) = record (Ev_post body) (snd st1)).
  { cbv zeta. unfold store_token.
    pose proof (do_request_frame body st1) as F.
    pose proof (do_request_world body st1) as W.
    destruct (do_request body st1) as [[token | e] st']; cbn [fst snd] in *.
    - split; [tauto | split; [intros e H; discriminate H | exact W]].
    - split; [tauto | split; [intros _ _; tauto | exact W]]. }
  cbv zeta in G. destruct G as (Glast & Gauth & Gworld).
  unfold after_encode.
  destruct p as [t |]; [destruct (encode_utf8 t) as [e | bytes] eqn:E |];
    cbn [fst snd].
  - split; [reflexivity | split; [reflexivity |]].
    split; [intros t' b' H; inversion H; subst t'; congruence |].
    split; [intros t' e' H H'; inversion H; subst t'; congruence |].
    lia.
  - split; [exact Glast | split; [exact Gauth |]].
    split; [intros t' b' _ _; split; [reflexivity | exact Gworld] |].
    split; [intros t' e' H H'; inversion H; subst t'; congruence |].
    rewrite Gworld. unfold count_post, posted. cbn. lia.
  - split; [reflexivity | split; [reflexivity |]].
    split; [intros t' b' H; discriminate H |].
    split; [intros t' e' H; discriminate H |].
    lia.
Qed.

Ltac login_cases st user password :=
  rewrite login_run; cbv zeta;
  destruct (Py.truthy_opt_str user && Py.truthy_opt_str password);
  [| destruct (Py.truthy_opt_str (__username (fst st))
               && Py.truthy_opt_str (__password (fst st)))];
  try match goal with
    | |- context [after_encode _ ?p ?s1 (store_token (do_request ?b ?s1))] =>
        let G := fresh "G" in
        pose proof (login_go b p s1) as G; cbv zeta in G;
        destruct G as (Glast & Gauth & Gsent & Gkept & Gposts)
    end.

Lemma login_raise_auth user password save st e :
  fst (login user password save st) = Raise e ->
  __auth (fst (snd (login user password save st))) = __auth (fst st).
Proof.
  login_cases st user password; [| | reflexivity];
    intros H; rewrite (Gauth _ H); try destruct save; reflexivity.
Qed.

(** C8: without a user and a password the persisted credentials are
    used, the call being the one made with them in hand; with none
    persisted it raises the exception for missing authentication
    information, leaving the client as it was and posting nothing;
    and with credentials in hand the marker of the last attempt holds
    the clock reading taken on entry, whether the login returns or
    raises.  The marker is set before the password is encoded for the
    log and before the request: with a password that encodes, one
    request has been posted, in every outcome; with one that does not,
    the codec's error escapes and nothing has been posted. *)
Theorem login_credentials_and_marker user password save st :
  let s := fst st in
  let given := Py.truthy_opt_str user && Py.truthy_opt_str password in
  let persisted :=
    Py.truthy_opt_str (__username s) && Py.truthy_opt_str (__password s) in
  (given = false -> persisted = false ->
   login user password save st
   = (Raise (ZabbixAPIException "No authentication information available."),
      (s, record Ev_login (snd st))))
  /\ (given = false -> persisted = true ->
      login user password save st
      = login (__username s) (__password s) false st)
  /\ (given || persisted = true ->
      last_login (fst (snd (login user password save st)))
      = Some (clock (ticks (snd st))))
  /\ (forall u p bytes,
         credentials_for user password s = Some (u, Some p) ->
         encode_utf8 p = inr bytes ->
         count_post (history (snd (snd (login user password save st))))
         = S (count_post (history (snd st))))
  /\ (forall u p e,
         credentials_for user password s = Some (u, Some p) ->
         encode_utf8 p = inl e ->
         fst (login user password save st) = Raise (UnicodeError e)
         /\ last_login (fst (snd (login user password save st)))
            = Some (clock (ticks (snd st)))
         /\ count_post (history (snd (snd (login user password save st))))
            = count_post (history (snd st))).
Proof.
  cbv zeta. split; [| split; [| split; [| split]]].
  - intros G P. rewrite login_run. cbv zeta. now rewrite G, P.
  - intros G P. rewrite !login_run. cbv zeta. now rewrite G, P.
  - intros H. revert H. login_cases st user password; intros H;
      [| | discriminate H]; rewrite Glast; try destruct save; reflexivity.
  - intros u p bytes. unfold credentials_for.
    login_cases st user password; intros C E; [| | discriminate C];
      injection C as Cu Cp;
      destruct (Gsent p bytes Cp E) as [_ W]; rewrite W; reflexivity.
  - intros u p e. unfold credentials_for.
    login_cases st user password; intros C E; [| | discriminate C];
      injection C as Cu Cp;
      rewrite (Gkept p e Cp E); cbn [fst snd]; try destruct save;
      repeat split; reflexivity.
Qed.

(** *** Relogin *)

Lemma login_same_relogins user password save :
  steps same_relogins (login user password save).
Proof.
  apply login_steps; unfold steps, same_relogins, count_relogin; intros;
    try rewrite do_request_world; cbn; congruence.
Qed.

Lemma login_posts user password save st :
  (count_post (history (snd (snd (login user password save st))))
   <= S (count_post (history (snd st))))%nat.
Proof.
  login_cases st user password;
    [exact Gposts | exact Gposts | unfold count_post, posted; cbn; lia].
Qed.

Lemma relogin_run st :
  relogin st =
    match login None None true
            (set_auth JNull (fst st), record Ev_relogin (snd st)) with
    | (Return u, st') => (Return u, st')
    | (Raise e, st') =>
        if is_ZabbixAPIException e
        then (Raise e, (set_auth JNull (fst st'), snd st'))
        else (Raise e, st')
    end.
Proof.
  destruct st as [s w].
  unfold relogin, bind, emit, try_except, update; cbn [fst snd].
  change {| ticks := ticks w; history := Ev_relogin :: history w |}
    with (record Ev_relogin w).
  destruct (login None None true (set_auth JNull s, record Ev_relogin w))
    as [[u | e] st']; [reflexivity |].
  destruct (is_ZabbixAPIException e); reflexivity.
Qed.

Lemma relogin_counts st :
  count_relogin (history (snd (snd (relogin st))))
  = S (count_relogin (history (snd st)))
  /\ (count_post (history (snd (snd (relogin st))))
      <= S (count_post (history (snd st))))%nat.
Proof.
  rewrite relogin_run.
  pose proof (login_same_relogins None None true
                (set_auth JNull (fst st), record Ev_relogin (snd st))) as C.
  pose proof (login_posts None None true
                (set_auth JNull (fst st), record Ev_relogin (snd st))) as P.
  unfold same_relogins, count_relogin, count_post, posted in *. revert C P.
  destruct (login None None true _) as [[u | e] st'];
    [| destruct (is_ZabbixAPIException e)]; cbn; intros C P; split; lia.
Qed.

(** C4: [relogin] runs [login] without arguments on the client whose
    token has been reset, and its outcome is the outcome of that
    login; when it raises, whatever the exception, the token is
    [None] afterwards and the client is not logged in; when it
    returns, the state is the one the login left; and with persisted
    credentials whose password encodes, the request it posts is the
    login request made of them, while a password that does not encode
    makes it raise the codec's error with nothing posted. *)
Theorem relogin_clears_auth st :
  let st_c := (set_auth JNull (fst st), record Ev_relogin (snd st)) in
  __auth (fst st_c) = JNull
  /\ fst (relogin st) = fst (login None None true st_c)
  /\ (forall e,
         fst (relogin st) = Raise e ->
         __auth (fst (snd (relogin st))) = JNull
         /\ logged_in (fst (snd (relogin st))) = false)
  /\ (forall u,
         fst (relogin st) = Return u ->
         snd (relogin st) = snd (login None None true st_c))
  /\ (forall p bytes,
         Py.truthy_opt_str (__username (fst st))
         && Py.truthy_opt_str (__password (fst st)) = true ->
         __password (fst st) = Some p ->
         encode_utf8 p = inr bytes ->
         posted (history (snd (snd (relogin st))))
         = login_envelope json_dumps (__username (fst st)) (__password (fst st))
             (id (fst st))
           :: posted (history (snd st)))
  /\ (forall p e,
         Py.truthy_opt_str (__username (fst st))
         && Py.truthy_opt_str (__password (fst st)) = true ->
         __password (fst st) = Some p ->
         encode_utf8 p = inl e ->
         fst (relogin st) = Raise (UnicodeError e)
         /\ posted (history (snd (snd (relogin st))))
            = posted (history (snd st))).
Proof.
  cbv zeta. split; [reflexivity |].
  rewrite relogin_run.
  pose proof (login_raise_auth None None true
                (set_auth JNull (fst st), record Ev_relogin (snd st))) as A.
  split; [| split; [| split; [| split]]].
  - destruct (login None None true _) as [[u | e] st'];
      [| destruct (is_ZabbixAPIException e)]; reflexivity.
  - intros e0 H. unfold logged_in.
    destruct (login None None true _) as [[u | e] st']; [discriminate H |].
    destruct (is_ZabbixAPIException e); cbn [fst snd] in *.
    + split; reflexivity.
    + rewrite (A e eq_refl). split; reflexivity.
  - intros u0 H.
    destruct (login None None true _) as [[u | e] st']; [reflexivity |].
    destruct (is_ZabbixAPIException e); discriminate H.
  - intros p bytes P Hp E. clear A.
    assert (W : snd (snd (login None None true
                    (set_auth JNull (fst st), record Ev_relogin (snd st))))
                = record (Ev_post (login_envelope json_dumps
                                     (__username (fst st)) (__password (fst st))
                                     (id (fst st))))
                    (tick_world (record Ev_login (record Ev_relogin (snd st))))).
    { rewrite login_run. cbv zeta. cbn [fst snd set_auth __username __password].
      rewrite P. cbn [andb Py.truthy_opt_str].
      match goal with
      | |- context [after_encode _ ?q ?s1 (store_token (do_request ?b ?s1))] =>
          pose proof (login_go b q s1) as G; cbv zeta in G;
          destruct G as (_ & _ & G & _)
      end.
      exact (proj2 (G p bytes Hp E)). }
    destruct (login None None true _) as [[u | e] st'];
      [| destruct (is_ZabbixAPIException e)]; cbn [fst snd] in *;
      rewrite W; reflexivity.
  - intros p e P Hp E. clear A.
    assert (W : login None None true
                  (set_auth JNull (fst st), record Ev_relogin (snd st))
                = (Raise (UnicodeError e),
                   tick (set_last_login
                           (Some (clock (ticks (record Ev_login
                                                  (record Ev_relogin (snd st))))))
                           (set_auth JNull (fst st)),
                         record Ev_login (record Ev_relogin (snd st))))).
    { rewrite login_run. cbv zeta. cbn [fst snd set_auth __username __password].
      rewrite P. cbn [andb Py.truthy_opt_str].
      match goal with
      | |- context [after_encode _ ?q ?s1 (store_token (do_request ?b ?s1))] =>
          pose proof (login_go b q s1) as G; cbv zeta in G;
          destruct G as (_ & _ & _ & G & _)
      end.
      exact (G p e Hp E). }
    rewrite W. cbn. split; reflexivity.
Qed.

(** *** The authentication check *)

(** C3: for a client that is not logged in, [check_auth] is the
    relogin made after one reading of the clock when the interval is
    configured, an earlier attempt exists and the time elapsed since
    exceeds the interval, so that a relogin that raises makes
    [check_auth] raise the same; in every other case it raises the
    exception of a client not logged in, with the client and the
    history as they were. *)
Theorem check_auth_when_not_logged_in st :
  logged_in (fst st) = false ->
  let now := clock (ticks (snd st)) in
  (relogin_due (fst st) now = true ->
   check_auth st = relogin (tick st)
   /\ count_relogin (history (snd (snd (check_auth st))))
      = S (count_relogin (history (snd st))))
  /\ (relogin_due (fst st) now = false ->
      fst (check_auth st) = Raise (ZabbixAPIException "Not logged in.")
      /\ fst (snd (check_auth st)) = fst st
      /\ history (snd (snd (check_auth st))) = history (snd st)).
Proof.
  intros L. cbv zeta. destruct st as [s w]. cbn [fst snd] in *.
  assert (E : check_auth (s, w)
              = if relogin_due s (clock (ticks w)) then relogin (tick (s, w))
                else (Raise (ZabbixAPIException "Not logged in."),
                      if Py.truthy_opt_num (relogin_interval s)
                         && Py.truthy_opt_num (last_login s)
                      then tick (s, w) else (s, w))).
  { unfold check_auth, bind, self, relogin_due. cbn [fst snd]. rewrite L.
    cbn [negb].
    destruct (relogin_interval s) as [i |], (last_login s) as [t |];
      cbn [Py.truthy_opt_num andb]; try reflexivity.
    - destruct (negb (i =? 0)), (negb (t =? 0)); cbn [andb]; try reflexivity.
      unfold time, bind; cbn [fst snd].
      destruct (i <? clock (ticks w) - t); reflexivity.
    - destruct (negb (i =? 0)); reflexivity. }
  rewrite E. split; intros D; rewrite D.
  - split; [reflexivity |].
    rewrite (proj1 (relogin_counts (tick (s, w)))). reflexivity.
  - destruct (_ && _); repeat split; reflexivity.
Qed.

(** *** The retry in [call] *)

Lemma relogin_enabled_run st :
  fst (relogin_enabled st) = Return true
  /\ snd (snd (relogin_enabled st)) = snd st
  /\ logged_in (fst (snd (relogin_enabled st))) = logged_in (fst st)
  /\ relogin_interval (fst (snd (relogin_enabled st)))
     = relogin_interval (fst st).
Proof.
  destruct st as [s w]. unfold relogin_enabled, getattr, bind, self.
  cbn [fst snd].
  destruct (find _ (__dict__ s)) as [[k o] |]; repeat split; reflexivity.
Qed.

Abbreviation request := (request transport json_dumps json_loads repr).

(** [call] from the state its [check_auth] left. *)
Lemma call_run method params st st0 :
  check_auth (tick st) = (Return tt, st0) ->
  call method params st =
    match request method params st0 with
    | (Return v, st1) => (Return v, tick st1)
    | (Raise ex, st1) =>
        if is_ZabbixAPIException ex then
          if not_authorized ex then
            match relogin (snd (relogin_enabled st1)) with
            | (Return _, st2) =>
                (fst (request method params st2),
                 tick (snd (request method params st2)))
            | (Raise e, st2) => (Raise e, tick st2)
            end
          else (Raise ex, tick (snd (relogin_enabled st1)))
        else (Raise ex, tick st1)
    end.
Proof.
  intros C. unfold call. unfold bind at 1. unfold time at 1. cbn [fst snd].
  change (fst st, {| ticks := S (ticks (snd st)); history := history (snd st) |})
    with (tick st).
  unfold bind at 1. rewrite C. unfold try_finally, try_except.
  change (obj <- json_obj method params true;; do_request obj)
    with (request method params).
  destruct (request method params st0) as [[v | ex] st1]; [reflexivity |].
  destruct (is_ZabbixAPIException ex); [| reflexivity].
  unfold bind at 1.
  pose proof (relogin_enabled_run st1) as (En & _).
  destruct (relogin_enabled st1) as [[en | e] st1e]; cbn [fst snd] in *;
    [| discriminate En].
  inversion En; subst en. cbn [andb].
  destruct (not_authorized ex); [| reflexivity].
  unfold bind at 1.
  destruct (relogin st1e) as [[u | e] st2]; [| reflexivity].
  change (obj <- json_obj method params true;; do_request obj)
    with (request method params).
  destruct (request method params st2) as [r st3]. reflexivity.
Qed.

Lemma request_run method params st :
  request method params st
  = do_request (call_envelope json_dumps method params (fst st)) st.
Proof. destruct st as [s w]. reflexivity. Qed.

Lemma request_world method params st :
  snd (snd (request method params st))
  = record (Ev_post (call_envelope json_dumps method params (fst st))) (snd st).
Proof. rewrite request_run. apply do_request_world. Qed.

Lemma check_auth_logged_in st :
  logged_in (fst st) = true -> check_auth st = (Return tt, st).
Proof.
  intros L. destruct st as [s w]. unfold check_auth, bind, self.
  cbn [fst snd] in *. rewrite L. reflexivity.
Qed.

(** The part of the history a retry adds to what the first request
    left. *)
Lemma call_retry_history method params st st0 ex st1 :
  check_auth (tick st) = (Return tt, st0) ->
  request method params st0 = (Raise ex, st1) ->
  is_ZabbixAPIException ex && not_authorized ex = true ->
  let st1e := snd (relogin_enabled st1) in
  count_relogin (history (snd (snd (call method params st))))
  = S (count_relogin (history (snd st1)))
  /\ match relogin st1e with
     | (Raise e, st2) =>
         fst (call method params st) = Raise e
         /\ history (snd (snd (call method params st))) = history (snd st2)
     | (Return _, st2) =>
         fst (call method params st) = fst (request method params st2)
         /\ history (snd (snd (call method params st)))
            = Ev_post (call_envelope json_dumps method params (fst st2))
                :: history (snd st2)
     end.
Proof.
  intros C Q H. cbv zeta. apply andb_prop in H as [Hz Hn].
  rewrite (call_run method params st st0 C), Q, Hz, Hn.
  pose proof (relogin_counts (snd (relogin_enabled st1))) as [K _].
  rewrite (proj1 (proj2 (relogin_enabled_run st1))) in K.
  revert K. destruct (relogin (snd (relogin_enabled st1))) as [[u | e] st2];
    cbn [fst snd tick tick_world history]; intros K.
  - rewrite request_world. cbn [record history]. unfold count_relogin in *.
    cbn. rewrite K. repeat split; reflexivity.
  - rewrite K. repeat split; reflexivity.
Qed.

(** C1: when the check of the authentication has returned and the
    request raises an exception of the module whose text holds the
    phrase for a missing authorization, the test of
    [relogin_enabled] holds, [call] makes exactly one relogin after
    that request, the relogin posts at most its own login, and then:
    if the relogin raises, [call] raises the same and posts nothing
    more; if it returns, [call] posts once more the request for the
    same method and parameters and its outcome, result or
    exception, is the outcome of [call].  Any other exception of the
    first request is the outcome of [call], with no event added to
    the history. *)
Theorem call_retries_once_after_relogin method params st st0 ex st1 :
  check_auth (tick st) = (Return tt, st0) ->
  request method params st0 = (Raise ex, st1) ->
  let st1e := snd (relogin_enabled st1) in
  (is_ZabbixAPIException ex && not_authorized ex = true ->
   fst (relogin_enabled st1) = Return true
   /\ count_relogin (history (snd (snd (call method params st))))
      = S (count_relogin (history (snd st1)))
   /\ (count_post (history (snd (snd (relogin st1e))))
       <= S (count_post (history (snd st1))))%nat
   /\ match relogin st1e with
      | (Raise e, st2) =>
          fst (call method params st) = Raise e
          /\ history (snd (snd (call method params st))) = history (snd st2)
      | (Return _, st2) =>
          fst (call method params st) = fst (request method params st2)
          /\ history (snd (snd (call method params st)))
             = Ev_post (call_envelope json_dumps method params (fst st2))
                 :: history (snd st2)
      end)
  /\ (is_ZabbixAPIException ex && not_authorized ex = false ->
      fst (call method params st) = Raise ex
      /\ history (snd (snd (call method params st))) = history (snd st1)).
Proof.
  intros C Q. cbv zeta. split; intros H.
  - pose proof (call_retry_history method params st st0 ex st1 C Q H) as [K M].
    split; [apply relogin_enabled_run |].
    split; [exact K |].
    split; [| exact M].
    pose proof (relogin_counts (snd (relogin_enabled st1))) as [_ P].
    now rewrite (proj1 (proj2 (relogin_enabled_run st1))) in P.
  - rewrite (call_run method params st st0 C), Q.
    destruct (is_ZabbixAPIException ex); [| split; reflexivity].
    cbn [andb] in H. rewrite H. cbn [fst snd tick tick_world history].
    now rewrite (proj1 (proj2 (relogin_enabled_run st1))).
Qed.

(** C5: [relogin_enabled] is not a name of the class or of the
    instance and does not start with an underscore, so the lookup
    ends in [__getattr__] and the test holds for every client; and
    whatever the relogin interval is set to, [None] included, a client
    that passed the check of the authentication and whose request
    raises an exception of the module with the phrase for a missing
    authorization makes one relogin and then the request again; for a
    client that was logged in this is the only relogin of the call. *)
Theorem relogin_enabled_for_every_interval :
  ~ In "relogin_enabled" ZabbixAPI_names
  /\ Py.startswith "_" "relogin_enabled" = false
  /\ (forall st, fst (relogin_enabled st) = Return true)
  /\ (forall interval method params s w st0 ex st1,
         let st := (set_relogin_interval interval s, w) in
         check_auth (tick st) = (Return tt, st0) ->
         request method params st0 = (Raise ex, st1) ->
         is_ZabbixAPIException ex = true ->
         not_authorized ex = true ->
         count_relogin (history (snd (snd (call method params st))))
         = S (count_relogin (history (snd st1)))
         /\ match relogin (snd (relogin_enabled st1)) with
            | (Raise e, st2) => fst (call method params st) = Raise e
            | (Return _, st2) =>
                fst (call method params st) = fst (request method params st2)
            end)
  /\ (forall interval method params s w ex st1,
         let st := (set_relogin_interval interval s, w) in
         logged_in s = true ->
         request method params (tick st) = (Raise ex, st1) ->
         is_ZabbixAPIException ex = true ->
         not_authorized ex = true ->
         count_relogin (history (snd (snd (call method params st))))
         = S (count_relogin (history w))).
Proof.
  split.
  { cbn. intros H.
    repeat (destruct H as [H | H]; [discriminate H |]). exact H. }
  split; [reflexivity |].
  split; [intros st; apply relogin_enabled_run |].
  split.
  - intros interval method params s w st0 ex st1 st C Q Hz Hn.
    assert (H : is_ZabbixAPIException ex && not_authorized ex = true)
      by (now rewrite Hz, Hn).
    pose proof (call_retry_history method params st st0 ex st1 C Q H) as [K M].
    split; [exact K |].
    destruct (relogin (snd (relogin_enabled st1))) as [[u | e] st2];
      exact (proj1 M).
  - intros interval method params s w ex st1 st L Q Hz Hn.
    assert (C : check_auth (tick st) = (Return tt, tick st))
      by (apply check_auth_logged_in; exact L).
    assert (H : is_ZabbixAPIException ex && not_authorized ex = true)
      by (now rewrite Hz, Hn).
    pose proof (call_retry_history method params st (tick st) ex st1 C Q H)
      as [K _].
    rewrite K. f_equal.
    pose proof (request_world method params (tick st)) as W.
    rewrite Q in W. cbn [snd] in W. rewrite W. reflexivity.
Qed.

(** *** Exception texts *)










(** *** Further properties of the session *)

(** X7: [api_version] asks without a token and without a check of the
    authentication: for every client, logged in or not, it is the
    request for the version envelope, it posts that one body, and it
    leaves the token, the credentials and the marker of the last login
    as they were. *)
Theorem api_version_keeps_session st :
  let r := api_version transport json_dumps json_loads repr st in
  r = do_request (version_envelope json_dumps (id (fst st))) st
  /\ history (snd (snd r))
     = Ev_post (version_envelope json_dumps (id (fst st))) :: history (snd st)
  /\ __auth (fst (snd r)) = __auth (fst st)
  /\ __username (fst (snd r)) = __username (fst st)
  /\ __password (fst (snd r)) = __password (fst st)
  /\ last_login (fst (snd r)) = last_login (fst st).
Proof.
  cbv zeta.
  assert (E : api_version transport json_dumps json_loads repr st
              = do_request (version_envelope json_dumps (id (fst st))) st)
    by (destruct st; reflexivity).
  rewrite E. split; [reflexivity |].
  rewrite do_request_world.
  pose proof (do_request_frame (version_envelope json_dumps (id (fst st))) st) as F.
  cbv zeta in F. repeat split; tauto.
Qed.

(** X8: when the reply decodes to an object, an [error] member that is
    itself an object wins over a [result] member: it is raised as the
    structured error, or, when it has a key [self], which clashes with
    the first parameter of the constructor its keys are passed to,
    [TypeError] is raised; an [error] member of any other kind is
    ignored, and then the [result] member is returned, whatever its
    value, or its absence raised. *)
Theorem do_request_error_before_result body st d :
  decoded json_loads (transport (posted (history (snd st))) body)
  = Some (JDict d) ->
  (forall error,
      dict_get d "error" = Some (JDict error) ->
      fst (do_request body st)
      = match dict_get error "self" with
        | Some _ => Raise TypeError
        | None => Raise (new_ZabbixAPIError repr error)
        end)
  /\ ((forall error, dict_get d "error" <> Some (JDict error)) ->
      fst (do_request body st)
      = match dict_get d "result" with
        | Some result => Return result
        | None => Raise (ZabbixAPIException "Missing result in API response")
        end).
Proof.
  intros D. rewrite (do_request_decoded body st _ D). split.
  - intros error E. now rewrite E.
  - intros N. destruct (dict_get d "error") as [[| | | | | | error] |];
      try reflexivity.
    now contradiction (N error).
Qed.

(** *** The id and the requests posted *)

Lemma call_id_follows_posts method params :
  steps id_follows_posts (call method params).
Proof.
  apply call_steps; unfold steps, id_follows_posts, count_post, posted.
  - intros; lia.
  - intros a b c; lia.
  - intros; cbn; lia.
  - intros; cbn; lia.
  - intros; cbn; lia.
  - intros; cbn; lia.
  - intros; cbn; lia.
  - intros; cbn; lia.
  - intros; cbn; lia.
  - intros body st. pose proof (do_request_id body st) as H.
    rewrite do_request_world. cbn [record history flat_map app List.length].
    destruct (decoded _ _); lia.
Qed.

Lemma login_id_follows_posts user password save :
  steps id_follows_posts (login user password save).
Proof.
  apply login_steps; unfold steps, id_follows_posts, count_post, posted.
  - intros; lia.
  - intros a b c; lia.
  - intros; cbn; lia.
  - intros; cbn; lia.
  - intros; cbn; lia.
  - intros; cbn; lia.
  - intros; cbn; lia.
  - intros body st. pose proof (do_request_id body st) as H.
    rewrite do_request_world. cbn [record history flat_map app List.length].
    destruct (decoded _ _); lia.
Qed.

(** X10: over a [call] and over a [login] the id never goes down and
    goes up by at most the number of requests posted meanwhile, so it
    stays put when nothing is posted. *)
Theorem id_advances_with_posts :
  (forall method params st,
      id_follows_posts st (snd (call method params st)))
  /\ (forall user password save st,
         id_follows_posts st (snd (login user password save st))).
Proof.
  split; [intros method params; apply call_id_follows_posts |].
  intros user password save. apply login_id_follows_posts.
Qed.

(** *** Login and relogin, the other cases *)

Lemma store_token_session body st1 :
  let r := store_token (do_request body st1) in
  __username (fst (snd r)) = __username (fst st1)
  /\ __password (fst (snd r)) = __password (fst st1)
  /\ (forall token,
         fst (do_request body st1) = Return token ->
         fst r = Return tt /\ __auth (fst (snd r)) = token).
Proof.
  cbv zeta. unfold store_token.
  pose proof (do_request_frame body st1) as F. cbv zeta in F.
  destruct (do_request body st1) as [[t | e] st']; cbn [fst snd] in *.
  - repeat split; try tauto; inversion H; reflexivity.
  - repeat split; try tauto; discriminate H.
Qed.

Lemma after_encode_session body p st1 :
  let r := after_encode encode_utf8 p st1 (store_token (do_request body st1)) in
  __username (fst (snd r)) = __username (fst st1)
  /\ __password (fst (snd r)) = __password (fst st1).
Proof.
  cbv zeta. pose proof (store_token_session body st1) as (U & P & _).
  cbv zeta in U, P. unfold after_encode.
  destruct p as [t |]; [destruct (encode_utf8 t) |]; cbn [fst snd];
    split; first [reflexivity | assumption].
Qed.

(** X11: when the password encodes and the reply to the login request
    decodes to an object with a [result] and without a structured
    error, [login] returns and the token is that result; the client
    then counts as logged in exactly when the result is true in
    Python's sense, so a login answered with an empty token returns
    and leaves the client logged out. *)
Theorem login_stores_token user password save st u p bytes d token :
  credentials_for user password (fst st) = Some (u, Some p) ->
  encode_utf8 p = inr bytes ->
  decoded json_loads
    (transport (posted (history (snd st)))
       (login_envelope json_dumps u (Some p) (id (fst st))))
  = Some (JDict d) ->
  (forall error, dict_get d "error" <> Some (JDict error)) ->
  dict_get d "result" = Some token ->
  fst (login user password save st) = Return tt
  /\ __auth (fst (snd (login user password save st))) = token
  /\ logged_in (fst (snd (login user password save st))) = truthy token.
Proof.
  intros C E D N R. unfold credentials_for in C.
  assert (G : forall s',
             id s' = id (fst st) ->
             fst (do_request (login_envelope json_dumps u (Some p) (id s'))
                    (tick (set_last_login
                             (Some (clock (ticks (record Ev_login (snd st))))) s',
                           record Ev_login (snd st))))
             = Return token).
  { intros s' I. rewrite I.
    rewrite (do_request_decoded _ _ (JDict d)); [| exact D].
    destruct (dict_get d "error") as [[| | | | | | error] |];
      try (now rewrite R).
    now contradiction (N error). }
  unfold logged_in. rewrite login_run. cbv zeta.
  destruct (Py.truthy_opt_str user && Py.truthy_opt_str password);
    [| destruct (Py.truthy_opt_str (__username (fst st))
                 && Py.truthy_opt_str (__password (fst st)));
       [| discriminate C]];
    injection C as Cu Cp; rewrite Cu, Cp;
    match goal with
    | |- context [after_encode _ ?q ?s1 (store_token (do_request ?b ?s1))] =>
        pose proof (login_go b q s1) as (_ & _ & S & _); cbv zeta in S;
        destruct (S p bytes eq_refl E) as [S' _]; rewrite S'; clear S S';
        pose proof (store_token_session b s1) as (_ & _ & T); cbv zeta in T
    end.
  - destruct (T token
                (G (if save then set_credentials u (Some p) (fst st)
                    else fst st)
                   ltac:(destruct save; reflexivity))) as [T1 T2].
    rewrite T1, T2. repeat split; reflexivity.
  - destruct (T token (G (fst st) eq_refl)) as [T1 T2].
    rewrite T1, T2. repeat split; reflexivity.
Qed.

(** X12: a [login] that raises leaves the token it found; the
    persisted credentials change only when a user and a password are
    both given and [save] is set, and then they are the given ones in
    every outcome, a failed request included. *)
Theorem login_persists_credentials user password save st :
  let s' := fst (snd (login user password save st)) in
  (forall e,
      fst (login user password save st) = Raise e ->
      __auth s' = __auth (fst st))
  /\ (Py.truthy_opt_str user && Py.truthy_opt_str password && save = false ->
      __username s' = __username (fst st)
      /\ __password s' = __password (fst st))
  /\ (Py.truthy_opt_str user && Py.truthy_opt_str password && save = true ->
      __username s' = user /\ __password s' = password).
Proof.
  cbv zeta. split; [intros e; apply login_raise_auth |].
  rewrite login_run. cbv zeta.
  destruct (Py.truthy_opt_str user && Py.truthy_opt_str password);
    [| destruct (Py.truthy_opt_str (__username (fst st))
                 && Py.truthy_opt_str (__password (fst st)))];
    try match goal with
      | |- context [after_encode _ ?q ?s1 (store_token (do_request ?b ?s1))] =>
          pose proof (after_encode_session b q s1) as (U & P);
          cbv zeta in U, P; rewrite U, P
      end;
    destruct save; cbn; split; intros H; try discriminate H;
    split; reflexivity.
Qed.

(** X13: without persisted credentials [relogin] posts nothing: it
    raises the exception for missing authentication information, and
    the client is left without a token and with its marker of the last
    login untouched. *)
Theorem relogin_without_credentials st :
  Py.truthy_opt_str (__username (fst st))
  && Py.truthy_opt_str (__password (fst st)) = false ->
  relogin st
  = (Raise (ZabbixAPIException "No authentication information available."),
     (set_auth JNull (fst st), record Ev_login (record Ev_relogin (snd st)))).
Proof.
  intros H. rewrite relogin_run, login_run. cbv zeta.
  cbn [fst snd set_auth __username __password Py.truthy_opt_str andb].
  rewrite H. reflexivity.
Qed.

(** *** [call], the other paths *)

Lemma check_auth_run st :
  check_auth st
  = if logged_in (fst st) then (Return tt, st)
    else if relogin_due (fst st) (clock (ticks (snd st))) then relogin (tick st)
    else (Raise (ZabbixAPIException "Not logged in."),
          if Py.truthy_opt_num (relogin_interval (fst st))
             && Py.truthy_opt_num (last_login (fst st))
          then tick st else st).
Proof.
  destruct st as [s w]. unfold check_auth, bind, self, relogin_due.
  cbn [fst snd]. destruct (logged_in s); cbn [negb]; [reflexivity |].
  destruct (relogin_interval s) as [i |], (last_login s) as [t |];
    cbn [Py.truthy_opt_num andb]; try reflexivity.
  - destruct (negb (i =? 0)), (negb (t =? 0)); cbn [andb]; try reflexivity.
    unfold time, bind; cbn [fst snd].
    destruct (i <? clock (ticks w) - t); reflexivity.
  - destruct (negb (i =? 0)); reflexivity.
Qed.

Lemma call_check_raises method params st e st0 :
  check_auth (tick st) = (Raise e, st0) ->
  call method params st = (Raise e, st0).
Proof.
  intros C. unfold call. unfold bind at 1. unfold time at 1. cbn [fst snd].
  change (fst st, {| ticks := S (ticks (snd st)); history := history (snd st) |})
    with (tick st).
  unfold bind at 1. now rewrite C.
Qed.

(** X14: for a logged-in client whose request returns, [call] returns
    that result after posting this one request, built from the token
    and the id the client had; no relogin is made and the token and
    the credentials are kept. *)
Theorem call_returns_result method params st v st1 :
  logged_in (fst st) = true ->
  request method params (tick st) = (Return v, st1) ->
  call method params st = (Return v, tick st1)
  /\ history (snd st1)
     = Ev_post (call_envelope json_dumps method params (fst st))
         :: history (snd st)
  /\ __auth (fst st1) = __auth (fst st)
  /\ __username (fst st1) = __username (fst st)
  /\ __password (fst st1) = __password (fst st).
Proof.
  intros L Q.
  assert (C : check_auth (tick st) = (Return tt, tick st))
    by (apply check_auth_logged_in; exact L).
  split; [now rewrite (call_run method params st _ C), Q |].
  pose proof (request_world method params (tick st)) as W.
  pose proof (do_request_frame
                (call_envelope json_dumps method params (fst (tick st)))
                (tick st)) as F.
  cbv zeta in F. rewrite <- request_run, Q in F. rewrite Q in W.
  cbn [fst snd] in *. rewrite W. repeat split; tauto.
Qed.

(** X15: a client that is not logged in and for which no relogin is due
    cannot call: [call] raises the exception of a client not logged
    in, posts nothing and leaves the client as it was. *)
Theorem call_requires_login method params st :
  logged_in (fst st) = false ->
  relogin_due (fst st) (clock (S (ticks (snd st)))) = false ->
  fst (call method params st) = Raise (ZabbixAPIException "Not logged in.")
  /\ fst (snd (call method params st)) = fst st
  /\ history (snd (snd (call method params st))) = history (snd st).
Proof.
  intros L D.
  pose proof (check_auth_run (tick st)) as C.
  cbn [tick tick_world fst snd ticks] in C. rewrite L, D in C.
  rewrite (call_check_raises method params st _ _ C).
  cbn [fst snd]. destruct (_ && _); repeat split; reflexivity.
Qed.

Lemma count_post_cons body h :
  count_post (Ev_post body :: h) = S (count_post h)
  /\ count_relogin (Ev_post body :: h) = count_relogin h.
Proof. split; reflexivity. Qed.

Lemma relogin_posts_grow st :
  (count_post (history (snd st))
   <= count_post (history (snd (snd (relogin st)))))%nat.
Proof.
  apply (relogin_steps
           (fun a b => (count_post (history (snd a))
                        <= count_post (history (snd b)))%nat));
    unfold steps, count_post, posted.
  - intros; lia.
  - intros a b c; lia.
  - intros; cbn; lia.
  - intros; cbn; lia.
  - intros; cbn; lia.
  - intros; cbn; lia.
  - intros; cbn; lia.
  - intros; cbn; lia.
  - intros body st'. rewrite do_request_world. cbn. lia.
Qed.

Lemma check_auth_counts st :
  (count_post (history (snd (snd (check_auth st))))
   <= S (count_post (history (snd st))))%nat
  /\ (count_relogin (history (snd (snd (check_auth st))))
      <= S (count_relogin (history (snd st))))%nat
  /\ (logged_in (fst st) = true -> check_auth st = (Return tt, st)).
Proof.
  rewrite check_auth_run.
  destruct (logged_in (fst st));
    [cbn [fst snd]; split; [lia | split; [lia | reflexivity]] |].
  destruct (relogin_due _ _).
  - pose proof (relogin_counts (tick st)) as [K P].
    cbn [tick tick_world snd history] in *.
    split; [lia | split; [lia | discriminate]].
  - destruct (Py.truthy_opt_num _ && _); cbn [fst snd tick tick_world history];
      (split; [lia | split; [lia | discriminate]]).
Qed.

(** X16: one [call] posts at most four requests and makes at most two
    relogins (the login of a relogin due at the check, the request, the
    login of the relogin after a denial, the request again); for a
    client that is logged in on entry it posts from one to three
    requests and makes at most one relogin. *)
Theorem call_is_bounded method params st :
  let h := history (snd st) in
  let h' := history (snd (snd (call method params st))) in
  (count_post h' <= count_post h + 4)%nat
  /\ (count_relogin h' <= count_relogin h + 2)%nat
  /\ (logged_in (fst st) = true ->
      (count_post h < count_post h' <= count_post h + 3)%nat
      /\ (count_relogin h' <= count_relogin h + 1)%nat).
Proof.
  cbv zeta.
  pose proof (check_auth_counts (tick st)) as (P0 & K0 & L0).
  cbn [tick tick_world fst snd history] in P0, K0, L0.
  fold (tick_world (snd st)) in P0, K0, L0.
  change (fst st, tick_world (snd st)) with (tick st) in P0, K0, L0.
  destruct (check_auth (tick st)) as [[[] | e] st0] eqn:C.
  2:{ rewrite (call_check_raises method params st e st0 C).
      cbn [fst snd] in *.
      split; [lia | split; [lia |]].
      intros L. specialize (L0 L). discriminate L0. }
  rewrite (call_run method params st st0 C).
  pose proof (request_world method params st0) as W1.
  assert (Base : forall st' : state,
             (count_post (history (snd st'))
              <= S (S (S (count_post (history (snd st0))))))%nat ->
             (count_post (history (snd st0)) < count_post (history (snd st')))%nat ->
             (count_relogin (history (snd st'))
              <= S (count_relogin (history (snd st0))))%nat ->
             (count_post (history (snd st')) <= count_post (history (snd st)) + 4)%nat
             /\ (count_relogin (history (snd st'))
                 <= count_relogin (history (snd st)) + 2)%nat
             /\ (logged_in (fst st) = true ->
                 (count_post (history (snd st))
                  < count_post (history (snd st'))
                  <= count_post (history (snd st)) + 3)%nat
                 /\ (count_relogin (history (snd st'))
                     <= count_relogin (history (snd st)) + 1)%nat)).
  { intros st' B1 B2 B3. cbn [fst snd] in P0, K0.
    split; [lia | split; [lia |]].
    intros L. specialize (L0 L). inversion L0; subst st0.
    cbn [tick tick_world fst snd history] in *. lia. }
  destruct (request method params st0) as [[v | ex] st1]; cbn [snd] in W1.
  - apply Base; cbn [fst snd tick tick_world history]; rewrite W1;
      cbn [record history]; rewrite ?(proj1 (count_post_cons _ _)),
        ?(proj2 (count_post_cons _ _)); lia.
  - assert (P1 : count_post (history (snd st1)) = S (count_post (history (snd st0))))
      by (rewrite W1; reflexivity).
    assert (K1 : count_relogin (history (snd st1))
                 = count_relogin (history (snd st0)))
      by (rewrite W1; reflexivity).
    pose proof (relogin_enabled_run st1) as (_ & We & _).
    pose proof (relogin_counts (snd (relogin_enabled st1))) as [K2 P2].
    pose proof (relogin_posts_grow (snd (relogin_enabled st1))) as G2.
    rewrite We in K2, P2, G2.
    destruct (is_ZabbixAPIException ex);
      [| apply Base; cbn [fst snd tick tick_world history]; lia].
    destruct (not_authorized ex);
      [| apply Base; cbn [fst snd tick tick_world history]; rewrite We; lia].
    destruct (relogin (snd (relogin_enabled st1))) as [[u | e] st2];
      cbn [fst snd] in K2, P2, G2.
    + pose proof (request_world method params st2) as W2.
      apply Base; cbn [fst snd tick tick_world history]; rewrite W2;
        cbn [record history]; rewrite ?(proj1 (count_post_cons _ _)),
          ?(proj2 (count_post_cons _ _)); lia.
    + apply Base; cbn [fst snd tick tick_world history]; lia.
Qed.

Lemma do_requests_log bodies st :
  log_reflects st ->
  log_reflects (do_requests transport json_loads repr bodies st)
  /\ maxlen (r_query (fst (do_requests transport json_loads repr bodies st)))
     = maxlen (r_query (fst st))
  /\ posted (history (snd (do_requests transport json_loads repr bodies st)))
     = (rev bodies ++ posted (history (snd st)))%list.
Proof.
  revert st. induction bodies as [| body rest IH]; intros st L.
  - cbn [do_requests rev app]. split; [exact L | split; reflexivity].
  - cbn [do_requests].
    destruct (IH (snd (do_request body st)) (do_request_keeps_log body st L))
      as (L' & M' & P').
    split; [exact L' | split].
    + rewrite M'. apply do_request_same_capacity.
    + rewrite P', do_request_world. cbn [record history posted flat_map rev].
      now rewrite <- app_assoc.
Qed.

(** X17: on a client made with the capacity [r_query_len], after any
    requests made one after the other, whatever they returned or
    raised, [recent_query] answers the last [r_query_len] bodies in
    the order sent, all of them when the capacity is [None]; so it
    answers as many as were sent, up to the capacity. *)
Theorem recent_query_length encode server user passwd interval len s w bodies :
  __init__ encode server user passwd interval len = inr s ->
  history w = [] ->
  let s' := fst (do_requests transport json_loads repr bodies (s, w)) in
  recent_query s'
  = match len with
    | Some n => last_n (Z.to_nat n) bodies
    | None => bodies
    end
  /\ List.length (recent_query s')
     = match len with
       | Some n => Nat.min (Z.to_nat n) (List.length bodies)
       | None => List.length bodies
       end.
Proof.
  intros H Hw. cbv zeta.
  destruct (init_log _ _ _ _ _ _ _ _ H Hw) as [L _].
  destruct (do_requests_log bodies (s, w) L) as (L' & M' & P').
  cbn [fst snd] in M', P'. rewrite Hw in P'. cbn [posted flat_map] in P'.
  rewrite app_nil_r in P'.
  unfold log_reflects, most_recent in L'. rewrite P', rev_involutive, M' in L'.
  rewrite (init_r_query _ _ _ _ _ _ _ H) in L'. cbn [maxlen] in L'.
  unfold recent_query. rewrite L'.
  destruct len as [n |]; cbn [option_map]; split; try reflexivity.
  unfold last_n. rewrite length_skipn. lia.
Qed.

(** *** Access by dot notation *)

Abbreviation dot_call :=
  (dot_call clock transport json_dumps json_loads repr encode_utf8).

Lemma find_wrapper (l : list (string * ZabbixAPISubClass)) ns k o :
  forallb (fun kv => String.eqb (prefix (snd kv)) (fst kv)
                     && negb (Py.startswith "_" (fst kv))) l = true ->
  find (fun kv => String.eqb (fst kv) ns) l = Some (k, o) ->
  o = {| prefix := ns |} /\ Py.startswith "_" ns = false.
Proof.
  induction l as [| [k' o'] l IH]; cbn [forallb find fst snd]; [discriminate |].
  intros H F. apply andb_prop in H as [H Hl]. apply andb_prop in H as [Hp Hu].
  destruct (String.eqb_spec k' ns) as [-> | N]; [| exact (IH Hl F)].
  inversion F; subst. apply String.eqb_eq in Hp. apply negb_true_iff in Hu.
  destruct o as [pre]. cbn in Hp. now subst.
Qed.

Lemma getattr_run ns st :
  wrappers_ok (fst st) = true ->
  Py.startswith "_" ns = false ->
  fst (getattr ns st) = Return {| prefix := ns |}
  /\ snd (snd (getattr ns st)) = snd st
  /\ wrappers_ok (fst (snd (getattr ns st))) = true
  /\ getattr ns (snd (getattr ns st))
     = (Return {| prefix := ns |}, snd (getattr ns st))
  /\ __auth (fst (snd (getattr ns st))) = __auth (fst st)
  /\ id (fst (snd (getattr ns st))) = id (fst st)
  /\ r_query (fst (snd (getattr ns st))) = r_query (fst st).
Proof.
  intros Hw Hu. destruct st as [s w]. unfold getattr, bind, self. cbn [fst snd] in *.
  destruct (find (fun kv => String.eqb (fst kv) ns) (__dict__ s))
    as [[k o] |] eqn:F.
  - destruct (find_wrapper _ _ _ _ Hw F) as [-> _]. cbn [ret fst snd].
    rewrite F. repeat split; (reflexivity || exact Hw).
  - unfold __getattr__. rewrite Hu. unfold bind, update, ret. cbn [fst snd].
    cbn [set_attr __dict__ find fst].
    destruct (String.eqb_spec ns ns) as [_ | N]; [| now contradiction N].
    repeat split; try reflexivity.
    unfold wrappers_ok. cbn [set_attr __dict__ forallb fst snd prefix].
    rewrite String.eqb_refl, Hu. exact Hw.
Qed.

Lemma getattr_underscore ns st :
  wrappers_ok (fst st) = true ->
  Py.startswith "_" ns = true ->
  exists text, getattr ns st = (Raise (AttributeError text), st).
Proof.
  intros Hw Hu. destruct st as [s w]. unfold getattr, bind, self. cbn [fst snd] in *.
  destruct (find (fun kv => String.eqb (fst kv) ns) (__dict__ s))
    as [[k o] |] eqn:F.
  - destruct (find_wrapper _ _ _ _ Hw F) as [_ C]. congruence.
  - unfold __getattr__. rewrite Hu. eexists. reflexivity.
Qed.

Lemma existsb_eqb_In (x : string) (l : list string) :
  existsb (String.eqb x) l = true <-> In x l.
Proof.
  rewrite existsb_exists. split.
  - intros [y [I E]]. apply String.eqb_eq in E. now subst.
  - intros I. exists x. split; [exact I | apply String.eqb_refl].
Qed.

Lemma existsb_eqb_not_In (x : string) (l : list string) :
  ~ In x l -> existsb (String.eqb x) l = false.
Proof.
  intros N. destruct (existsb (String.eqb x) l) eqn:E; [| reflexivity].
  apply existsb_eqb_In in E. contradiction.
Qed.




(** X19: for a namespace that ordinary lookup does not find on the
    client, and with no two leading underscores in the namespace or
    the name: a namespace that starts with an underscore raises
    [AttributeError], the client and the world staying as they were;
    under any other namespace a name that starts with an underscore
    raises [AttributeError], and the names [prefix] and [parent], the
    wrapper's own attributes, raise [TypeError]; in both cases nothing
    is posted and the clock is not read. *)
Theorem dot_call_underscore namespace name params st :
  wrappers_ok (fst st) = true ->
  ~ In namespace ZabbixAPI_names ->
  Py.startswith "__" namespace = false ->
  Py.startswith "__" name = false ->
  exists run,
    dot_call namespace name params = Some run
    /\ (Py.startswith "_" namespace = true ->
        exists text, run st = (Raise (AttributeError text), st))
    /\ (Py.startswith "_" namespace = false ->
        Py.startswith "_" name = true ->
        (exists text, fst (run st) = Raise (AttributeError text))
        /\ snd (snd (run st)) = snd st)
    /\ (Py.startswith "_" namespace = false ->
        In name ZabbixAPISubClass_names ->
        fst (run st) = Raise TypeError
        /\ snd (snd (run st)) = snd st).
Proof.
  intros Hw Hc Dn Dm. unfold dot_call.
  rewrite (existsb_eqb_not_In _ _ Hc), Dn, Dm. cbn [orb].
  eexists. split; [reflexivity |]. split; [| split].
  - intros Hn. destruct (getattr_underscore namespace st Hw Hn) as [text G].
    exists text. unfold bind. now rewrite G.
  - intros Hn Hm.
    destruct (getattr_run namespace st Hw Hn) as (G & W & _).
    unfold bind.
    destruct (getattr namespace st) as [[o | e] st']; cbn [fst snd] in *;
      [| discriminate G].
    assert (N : existsb (String.eqb name) ZabbixAPISubClass_names = false).
    { apply existsb_eqb_not_In. intros [<- | [<- | []]]; discriminate Hm. }
    rewrite N. unfold sub_getattr. rewrite Hm. cbn [raise fst snd].
    split; [eexists; reflexivity | exact W].
  - intros Hn Hm.
    destruct (getattr_run namespace st Hw Hn) as (G & W & _).
    unfold bind.
    destruct (getattr namespace st) as [[o | e] st']; cbn [fst snd] in *;
      [| discriminate G].
    rewrite (proj2 (existsb_eqb_In _ _) Hm). cbn [raise fst snd].
    split; [reflexivity | exact W].
Qed.

(** X20: for a namespace that ordinary lookup does not find on the
    client and that does not start with an underscore, the wrapper is
    made once: the first lookup binds it on the client, a second
    lookup answers the same wrapper and changes nothing, and the
    bindings stay well formed; a new client has none. *)
Theorem getattr_caches_wrapper namespace st :
  wrappers_ok (fst st) = true ->
  ~ In namespace ZabbixAPI_names ->
  Py.startswith "_" namespace = false ->
  let st' := snd (getattr namespace st) in
  fst (getattr namespace st) = Return {| prefix := namespace |}
  /\ getattr namespace st' = (Return {| prefix := namespace |}, st')
  /\ wrappers_ok (fst st') = true
  /\ (In (namespace, {| prefix := namespace |}) (__dict__ (fst st')))
  /\ (forall encode server user passwd interval len s,
         __init__ encode server user passwd interval len = inr s ->
         __dict__ s = [] /\ wrappers_ok s = true).
Proof.
  intros Hw _ Hn. cbv zeta.
  destruct (getattr_run namespace st Hw Hn) as (G & _ & K & T & _).
  split; [exact G | split; [exact T | split; [exact K | split]]].
  - clear T K. destruct st as [s w]. revert G.
    unfold getattr, bind, self. cbn [fst snd] in *.
    destruct (find (fun kv => String.eqb (fst kv) namespace) (__dict__ s))
      as [[k o] |] eqn:F.
    + intros _. cbn [ret fst snd].
      destruct (find_wrapper _ _ _ _ Hw F) as [-> _].
      apply find_some in F as [I E]. cbn [fst] in E.
      apply String.eqb_eq in E. now subst k.
    + intros _. unfold __getattr__. rewrite Hn.
      unfold bind, update, ret. cbn [fst snd set_attr __dict__].
      now left.
  - intros encode server user passwd interval len s. unfold __init__.
    destruct (deque_new len); [discriminate |].
    destruct (_ || _); [| discriminate].
    destruct (init_headers encode user passwd); [discriminate |].
    intros H. inversion H. split; reflexivity.
Qed.

(** X21: a new client is not logged in, has id 0, no login attempt, an
    empty log, the endpoint made of the server and the fixed path, and
    the interval it was given; on it, before any login is attempted,
    [call] raises the exception of a client not logged in without
    posting and leaves the client as it was, so that calling again
    raises the same. *)
Theorem new_client_must_login encode server user passwd interval len s :
  __init__ encode server user passwd interval len = inr s ->
  logged_in s = false /\ id s = 0 /\ last_login s = None
  /\ recent_query s = []
  /\ _api_url s = server ++ "/api_jsonrpc.php"
  /\ relogin_interval s = interval
  /\ (forall method params w,
         fst (call method params (s, w))
         = Raise (ZabbixAPIException "Not logged in.")
         /\ fst (snd (call method params (s, w))) = s
         /\ history (snd (snd (call method params (s, w)))) = history w).
Proof.
  intros H.
  assert (E : logged_in s = false /\ id s = 0 /\ last_login s = None
              /\ recent_query s = []
              /\ _api_url s = server ++ "/api_jsonrpc.php"
              /\ relogin_interval s = interval).
  { unfold recent_query. rewrite (init_r_query _ _ _ _ _ _ _ H).
    revert H. unfold __init__.
    destruct (deque_new len); [discriminate |].
    destruct (_ || _); [| discriminate].
    destruct (init_headers encode user passwd); [discriminate |].
    intros H. inversion H. cbn. repeat split. }
  destruct E as (L & I & T & Q & U & R).
  split; [exact L | split; [exact I | split; [exact T | split; [exact Q |]]]].
  split; [exact U | split; [exact R |]].
  intros method params w.
  pose proof (check_auth_run (tick (s, w))) as C.
  cbn [tick tick_world fst snd ticks] in C. rewrite L in C.
  unfold relogin_due in C. rewrite T in C.
  assert (D : (match relogin_interval s with
               | Some _ => false | None => false end) = false)
    by (destruct (relogin_interval s); reflexivity).
  rewrite D in C.
  rewrite (call_check_raises method params (s, w) _ _ C).
  cbn [fst snd Py.truthy_opt_num andb].
  rewrite ?Bool.andb_false_r.
  destruct (Py.truthy_opt_num (relogin_interval s)); repeat split; reflexivity.
Qed.

End Session.

Lemma dict_get_update (base kwargs : dict) (k : string) :
  dict_get (dict_update base kwargs) k
  = match dict_get kwargs k with
    | Some v => Some v
    | None => dict_get base k
    end.
Proof.
  unfold dict_update. induction kwargs as [| [k' v'] kw IH]; cbn; [reflexivity |].
  destruct (String.eqb k' k); [reflexivity | exact IH].
Qed.

(** ** Concrete runs *)

(** C2, counterexample: the body of the reply decodes to an object with
    neither a result nor an error; the request raises the transport
    exception for the missing result after the id went from 0 to 1. *)
Lemma missing_result_increments_id :
  Mock.do_request [Mock.ok "{}"] "host.get#0"
    (Mock.signed_in (Some 60) (Some 10), Mock.world0)
  = (Raise (ZabbixAPIException "Missing result in API response"),
     (set_id 1
        (set_r_query {| maxlen := Some 10%nat; items := ["host.get#0"] |}
           (Mock.signed_in (Some 60) (Some 10))),
      record (Ev_post "host.get#0") Mock.world0))
  /\ ~ id_kept_on_transport_failure.
Proof.
  split; [reflexivity |].
  intros H.
  specialize (H (Mock.scripted [Mock.ok "{}"]) Mock.json_loads Mock.repr
                "host.get#0" (Mock.signed_in (Some 60) (Some 10), Mock.world0)
                "Missing result in API response" eq_refl).
  vm_compute in H. discriminate H.
Qed.

Lemma request_id_counts_decoded_replies_witness :
  id (fst (snd (Mock.do_request [Mock.ok "denied"] "host.get#0"
                  (Mock.signed_in (Some 60) (Some 10), Mock.world0))))
  = 1
  /\ fst (Mock.do_request [Mock.ok "denied"] "host.get#0"
            (Mock.signed_in (Some 60) (Some 10), Mock.world0))
     = Raise (new_ZabbixAPIError Mock.repr
                [ ("code", JInt (-32602));
                  ("message", JStr "Invalid params.");
                  ("data", JStr "Not authorized while sending request") ]).
Proof.
  unfold Mock.do_request.
  exact (proj1 (proj2
           (request_id_counts_decoded_replies
              Mock.clock (Mock.scripted [Mock.ok "denied"])
              Mock.json_dumps Mock.json_loads Mock.repr Mock.encode_utf8))
           "host.get#0" (Mock.signed_in (Some 60) (Some 10), Mock.world0)
           Mock.not_authorized_error eq_refl).
Defined.




Lemma call_retries_once_after_relogin_witness :
  count_relogin
    (history (snd (snd (Mock.call Mock.denied_once "host.get" JNull
                          (Mock.signed_in (Some 60) (Some 10), Mock.world0)))))
  = 1%nat.
Proof.
  unfold Mock.call.
  edestruct (call_retries_once_after_relogin
               Mock.clock (Mock.scripted Mock.denied_once)
               Mock.json_dumps Mock.json_loads Mock.repr Mock.encode_utf8
               "host.get" JNull
               (Mock.signed_in (Some 60) (Some 10), Mock.world0)) as [H _];
    [reflexivity | reflexivity |].
  destruct (H eq_refl) as (_ & K & _).
  etransitivity; [exact K | reflexivity].
Defined.

Lemma relogin_enabled_for_every_interval_witness :
  count_relogin
    (history (snd (snd (Mock.call Mock.denied_once "host.get" JNull
                          (Mock.signed_in None (Some 10), Mock.world0)))))
  = 1%nat.
Proof.
  unfold Mock.call.
  refine (proj2 (proj2 (proj2 (proj2
            (relogin_enabled_for_every_interval
               Mock.clock (Mock.scripted Mock.denied_once)
               Mock.json_dumps Mock.json_loads Mock.repr Mock.encode_utf8))))
            None "host.get" JNull (Mock.signed_in (Some 60) (Some 10))
            Mock.world0 _ _ eq_refl _ _ _);
    reflexivity.
Defined.

Lemma check_auth_when_not_logged_in_witness :
  Mock.check_auth [] (Mock.lapsed (Some 60), Mock.world0)
  = Mock.relogin [] (tick (Mock.lapsed (Some 60), Mock.world0))
  /\ fst (Mock.check_auth [] (Mock.lapsed None, Mock.world0))
     = Raise (ZabbixAPIException "Not logged in.").
Proof.
  split.
  - exact (proj1 (proj1 (check_auth_when_not_logged_in
                           Mock.clock (Mock.scripted [])
                           Mock.json_dumps Mock.json_loads Mock.repr
                           Mock.encode_utf8
                           (Mock.lapsed (Some 60), Mock.world0) eq_refl)
                    eq_refl)).
  - exact (proj1 (proj2 (check_auth_when_not_logged_in
                           Mock.clock (Mock.scripted [])
                           Mock.json_dumps Mock.json_loads Mock.repr
                           Mock.encode_utf8
                           (Mock.lapsed None, Mock.world0) eq_refl)
                    eq_refl)).
Defined.

Lemma relogin_clears_auth_witness :
  __auth (fst (snd (Mock.relogin []
                      (Mock.signed_in (Some 60) (Some 10), Mock.world0))))
  = JNull
  /\ posted (history (snd (snd (Mock.relogin []
                                  (Mock.signed_in (Some 60) (Some 10),
                                   Mock.world0)))))
     = [ "user.login#0" ]
  /\ posted (history (snd (snd (Mock.relogin []
                                  (set_credentials (Some "Admin")
                                     (Some Mock.surrogate)
                                     (Mock.fresh (Some 60) (Some 10)),
                                   Mock.world0)))))
     = [].
Proof.
  unfold Mock.relogin.
  destruct (relogin_clears_auth
              Mock.clock (Mock.scripted [])
              Mock.json_dumps Mock.json_loads Mock.repr Mock.encode_utf8
              (Mock.signed_in (Some 60) (Some 10), Mock.world0))
    as (_ & _ & Raised & _ & Sent & _).
  destruct (relogin_clears_auth
              Mock.clock (Mock.scripted [])
              Mock.json_dumps Mock.json_loads Mock.repr Mock.encode_utf8
              (set_credentials (Some "Admin") (Some Mock.surrogate)
                 (Mock.fresh (Some 60) (Some 10)),
               Mock.world0))
    as (_ & _ & _ & _ & _ & Kept).
  split; [| split].
  - eapply Raised. reflexivity.
  - exact (Sent "zabbix" "zabbix" eq_refl eq_refl eq_refl).
  - exact (proj2 (Kept Mock.surrogate _ eq_refl eq_refl eq_refl)).
Defined.

Lemma login_credentials_and_marker_witness :
  last_login (fst (snd (Mock.login [] None None true
                          (Mock.signed_in (Some 60) (Some 10), Mock.world0))))
  = Some 1000
  /\ count_post (history (snd (snd (Mock.login [] None None true
                                      (Mock.signed_in (Some 60) (Some 10),
                                       Mock.world0)))))
     = 1%nat
  /\ fst (Mock.login [] (Some "Admin") (Some Mock.surrogate) true
            (Mock.fresh (Some 60) (Some 10), Mock.world0))
     = Raise (UnicodeError
                "'utf-8' codec can't encode character: surrogates not allowed").
Proof.
  unfold Mock.login.
  destruct (login_credentials_and_marker
              Mock.clock (Mock.scripted [])
              Mock.json_dumps Mock.json_loads Mock.repr Mock.encode_utf8
              None None true
              (Mock.signed_in (Some 60) (Some 10), Mock.world0))
    as (_ & _ & Marker & Sent & _).
  destruct (login_credentials_and_marker
              Mock.clock (Mock.scripted [])
              Mock.json_dumps Mock.json_loads Mock.repr Mock.encode_utf8
              (Some "Admin") (Some Mock.surrogate) true
              (Mock.fresh (Some 60) (Some 10), Mock.world0))
    as (_ & _ & _ & _ & Kept).
  split; [| split].
  - exact (Marker eq_refl).
  - exact (Sent (Some "Admin") "zabbix" "zabbix" eq_refl eq_refl).
  - exact (proj1 (Kept (Some "Admin") Mock.surrogate _ eq_refl eq_refl)).
Defined.

Lemma recent_query_reflects_requests_witness :
  maxlen (r_query (Mock.fresh (Some 60) (Some 2))) = Some 2%nat
  /\ log_reflects
       (snd (Mock.call Mock.denied_once "host.get" JNull
               (Mock.signed_in (Some 60) (Some 2), Mock.world0))).
Proof.
  split.
  - exact (proj1 (proj1 (proj2
             (recent_query_reflects_requests
                Mock.clock (Mock.scripted Mock.denied_once)
                Mock.json_dumps Mock.json_loads Mock.repr Mock.encode_utf8))
             Mock.encode_utf8 "http://localhost/zabbix" None None
             (Some 60) (Some 2) (Mock.fresh (Some 60) (Some 2)) eq_refl)).
  - apply (proj1 (proj2 (proj2 (proj2 (proj2 (proj2
             (recent_query_reflects_requests
                Mock.clock (Mock.scripted Mock.denied_once)
                Mock.json_dumps Mock.json_loads Mock.repr
                Mock.encode_utf8))))))).
    reflexivity.
Defined.

(** * Further properties *)

(** ** Severity labels, every index *)

(** X1: an id from 0 to 5 selects its label; an id from -6 to -1 selects
    the label of the id six above it; every other id gives the
    sentinel. *)
Theorem get_severity_by_index (prio : Z) :
  (0 <= prio <= 5 ->
   nth_error TRIGGER_SEVERITY (Z.to_nat prio) = Some (get_severity prio))
  /\ (-6 <= prio < 0 -> get_severity prio = get_severity (prio + 6))
  /\ (prio < -6 \/ 5 < prio -> get_severity prio = "unknown").
Proof.
  split; [apply get_severity_valid |].
  split; [| apply get_severity_far].
  intros H.
  assert (E : prio = -6 \/ prio = -5 \/ prio = -4 \/ prio = -3
              \/ prio = -2 \/ prio = -1) by lia.
  repeat (destruct E as [-> | E]; [reflexivity |]); subst; reflexivity.
Qed.

Lemma get_severity_by_index_witness :
  get_severity (-4) = get_severity 2 /\ get_severity 9 = "unknown".
Proof.
  split.
  - apply (proj1 (proj2 (get_severity_by_index (-4)))). lia.
  - apply (proj2 (proj2 (get_severity_by_index 9))). lia.
Defined.

(** ** The parts of an age *)

(** X2: the hours, minutes and seconds that [get_age] prints lie in
    [0, 24), [0, 60) and [0, 60), whatever the sign of the difference,
    and together with the days they make up the whole seconds of the
    difference, rounded down: microseconds are dropped. *)
Theorem get_age_components (now dt : Z) :
  let delta := datetime_sub now dt in
  let h := seconds delta / 3600 in
  let m := (seconds delta mod 3600) / 60 in
  let s := (seconds delta mod 3600) mod 60 in
  0 <= h < 24 /\ 0 <= m < 60 /\ 0 <= s < 60
  /\ days delta * 86400 + h * 3600 + m * 60 + s = (now - dt) / 1000000
  /\ get_age now dt
     = if days delta =? 0 then fmt_hms h m s else fmt_dhm (days delta) h m.
Proof.
  cbv zeta. unfold datetime_sub. cbn [days seconds].
  set (us := now - dt).
  set (r := us mod 86400000000).
  assert (Hr : 0 <= r < 86400000000) by (apply Z.mod_pos_bound; lia).
  set (sec := r / 1000000).
  assert (Hsec : 0 <= sec < 86400).
  { unfold sec. split; [apply Z.div_pos; lia |].
    apply Z.div_lt_upper_bound; lia. }
  assert (Hus : us / 1000000 = us / 86400000000 * 86400 + sec).
  { unfold sec, r.
    rewrite (Z.div_mod us 86400000000) at 1 by lia.
    replace (86400000000 * (us / 86400000000))
      with (us / 86400000000 * 86400 * 1000000) by lia.
    rewrite Z.div_add_l by lia. reflexivity. }
  pose proof (Z.div_mod sec 3600 ltac:(lia)) as D1.
  pose proof (Z.mod_pos_bound sec 3600 ltac:(lia)) as B1.
  pose proof (Z.div_mod (sec mod 3600) 60 ltac:(lia)) as D2.
  pose proof (Z.mod_pos_bound (sec mod 3600) 60 ltac:(lia)) as B2.
  assert (0 <= sec / 3600 < 24).
  { split; [apply Z.div_pos; lia | apply Z.div_lt_upper_bound; lia]. }
  assert (0 <= sec mod 3600 / 60 < 60).
  { split; [apply Z.div_pos; lia | apply Z.div_lt_upper_bound; lia]. }
  repeat split; try lia.
  unfold get_age, Py.divmod, datetime_sub. cbn [days seconds].
  fold us. fold r. fold sec.
  destruct (us / 86400000000 =? 0); reflexivity.
Qed.

(** ** Redaction, the other cases *)

Lemma string_app_empty (a : string) : a ++ "" = a.
Proof. induction a as [| c a IH]; cbn; [reflexivity | now rewrite IH]. Qed.

(** X3: a text in which neither field opens comes back unchanged. *)
Theorem hide_auth_keeps_plain_text (msg : string) :
  no_field_start "auth" msg "" = true ->
  no_field_start "password" msg "" = true ->
  hide_auth msg = msg.
Proof.
  intros Ha Hp. unfold hide_auth. cbn [fold_left RE_HIDE_AUTH].
  rewrite <- (string_app_empty msg) at 1.
  rewrite (re_sub_prefix "auth" msg "" Ha). cbn [re_sub].
  rewrite string_app_empty.
  rewrite <- (string_app_empty msg) at 1.
  rewrite (re_sub_prefix "password" msg "" Hp). cbn [re_sub].
  apply string_app_empty.
Qed.

Lemma hide_auth_keeps_plain_text_witness :
  hide_auth (dq "HTTP error 412: 'auth' header not allowed")
  = dq "HTTP error 412: 'auth' header not allowed".
Proof. apply hide_auth_keeps_plain_text; reflexivity. Defined.

(** X4: the masked part of a value ends at its first double quote: what
    follows that quote is kept as it is when no field opens in it, so
    the rest of a value that holds an escaped double quote stays in the
    text. *)
Theorem re_sub_masks_up_to_first_quote (key a v rest : string) :
  plain_value v = true ->
  no_field_start key a (field key v ++ rest) = true ->
  no_field_start key rest "" = true ->
  re_sub key O (a ++ field key v ++ rest) = a ++ field key "***" ++ rest.
Proof.
  intros Hv Ha Hr.
  rewrite (re_sub_prefix key a _ Ha), (re_sub_field key v rest Hv).
  rewrite <- (string_app_empty rest) at 1.
  rewrite (re_sub_prefix key rest "" Hr). cbn [re_sub].
  now rewrite string_app_empty.
Qed.

Lemma re_sub_masks_up_to_first_quote_witness :
  re_sub "password" O (dq "{'password': 'p\'ss'}")
  = dq "{'password': '***'ss'}".
Proof.
  apply (re_sub_masks_up_to_first_quote
           "password" "{" "p\" (dq "ss'}")); reflexivity.
Defined.

(** ** The phrase that triggers the retry *)

Lemma startswith_iff (p s : string) :
  Py.startswith p s = true <-> exists b, s = p ++ b.
Proof.
  revert s. induction p as [| x p IH]; intros s; cbn.
  - split; [intros _; now exists s | reflexivity].
  - destruct s as [| y s]; [split; [discriminate | intros [b H]; discriminate H] |].
    split.
    + intros H. apply andb_prop in H as [Hx Hp]. apply Ascii.eqb_eq in Hx.
      apply IH in Hp as [b ->]. exists b. now subst.
    + intros [b H]. inversion H; subst. rewrite Ascii.eqb_refl.
      apply IH. now exists b.
Qed.

Lemma find_from_occurs (sub s : string) (i : Z) :
  0 <= i -> (0 <= Py.find_from i sub s <-> occurs sub s).
Proof.
  revert i. induction s as [| c s IH]; intros i Hi; cbn [Py.find_from].
  - destruct (Py.startswith sub "") eqn:E.
    + split; [intros _ | lia]. apply startswith_iff in E as [b E].
      exists "", b. exact E.
    + split; [lia |]. intros [a [b H]].
      destruct a; [| discriminate H]. cbn in H.
      assert (T : Py.startswith sub "" = true)
        by (apply startswith_iff; now exists b).
      congruence.
  - destruct (Py.startswith sub (String c s)) eqn:E.
    + split; [intros _ | lia]. apply startswith_iff in E as [b E].
      exists "", b. exact E.
    + rewrite (IH (i + 1)) by lia. split.
      * intros [a [b ->]]. now exists (String c a), b.
      * intros [a [b H]]. destruct a as [| c' a].
        -- cbn in H.
           assert (T : Py.startswith sub (String c s) = true)
             by (apply startswith_iff; now exists b).
           congruence.
        -- inversion H; subst. now exists a, b.
Qed.

(** X5: the retry is triggered exactly by the exceptions whose text
    holds the phrase somewhere, in this spelling: [find] answers an
    index from 0 on when the phrase occurs and -1 when it does not. *)
Theorem not_authorized_iff_phrase (ex : exn) :
  not_authorized ex = true
  <-> occurs "Not authorized while sending" (str_exn ex).
Proof.
  unfold not_authorized, Py.find. rewrite Z.leb_le.
  apply find_from_occurs. lia.
Qed.

Lemma not_authorized_iff_phrase_witness :
  not_authorized
    (ZabbixAPIException "Invalid params. Not authorized while sending [-32602]")
  = true
  /\ ~ occurs "Not authorized while sending" "not authorized".
Proof.
  split.
  - apply (proj2 (not_authorized_iff_phrase _)).
    exists "Invalid params. ", " [-32602]". reflexivity.
  - intros H.
    apply (proj2 (not_authorized_iff_phrase (ZabbixAPIException "not authorized")))
      in H.
    discriminate H.
Defined.

(** ** The structured error *)

(** X6: the [error] attribute of a structured error always binds
    [code], [message] and [data]: to the value given for the key, and
    to the default (-1, the empty text, [None]) for a key not given;
    keys beyond these three are kept; and the text is the redacted
    line made of message, data and code. *)
Theorem ZabbixAPIError_has_three_keys repr (error_kwargs : dict) :
  exists error,
    new_ZabbixAPIError repr error_kwargs
    = ZabbixAPIError error
        (hide_auth
           (match dict_get error "message" with Some v => str repr v | None => "" end
            ++ " "
            ++ match dict_get error "data" with Some v => str repr v | None => "" end
            ++ " ["
            ++ match dict_get error "code" with Some v => str repr v | None => "" end
            ++ "]"))
    /\ (forall k v, dict_get error_kwargs k = Some v -> dict_get error k = Some v)
    /\ (dict_get error_kwargs "code" = None -> dict_get error "code" = Some (JInt (-1)))
    /\ (dict_get error_kwargs "message" = None ->
        dict_get error "message" = Some (JStr ""))
    /\ (dict_get error_kwargs "data" = None -> dict_get error "data" = Some JNull)
    /\ dict_get error "code" <> None
    /\ dict_get error "message" <> None
    /\ dict_get error "data" <> None.
Proof.
  exists (dict_update _error_template error_kwargs).
  split; [reflexivity |].
  split; [intros k v H; now rewrite dict_get_update, H |].
  rewrite !dict_get_update.
  repeat split;
    try (intros H; rewrite H; reflexivity);
    match goal with
    | |- context [dict_get error_kwargs ?k] =>
        destruct (dict_get error_kwargs k); discriminate
    end.
Qed.

Lemma ZabbixAPIError_has_three_keys_witness :
  exists error,
    new_ZabbixAPIError Mock.repr [ ("message", JStr "Invalid params.") ]
    = ZabbixAPIError error (hide_auth "Invalid params. None [-1]")
    /\ dict_get error "data" = Some JNull.
Proof.
  destruct (ZabbixAPIError_has_three_keys
              Mock.repr [ ("message", JStr "Invalid params.") ])
    as (error & E & K & C & _ & D & _).
  exists error. split; [| exact (D eq_refl)].
  rewrite E, (K "message" _ eq_refl), (D eq_refl), (C eq_refl).
  reflexivity.
Defined.

(** ** Construction *)









(** ** Concrete runs of the further properties *)

Lemma do_request_error_before_result_witness :
  fst (do_request (Mock.scripted [Mock.ok "both"])
         (fun _ => inr (JDict [ ("result", JInt 1);
                                ("error", JDict [ ("code", JInt 7) ]) ]))
         Mock.repr "host.get#0" (Mock.signed_in None (Some 10), Mock.world0))
  = Raise (new_ZabbixAPIError Mock.repr [ ("code", JInt 7) ])
  /\ fst (do_request (Mock.scripted [Mock.ok "self"])
            (fun _ => inr (JDict [ ("result", JInt 1);
                                   ("error", JDict [ ("self", JInt 7) ]) ]))
            Mock.repr "host.get#0"
            (Mock.signed_in None (Some 10), Mock.world0))
     = Raise TypeError.
Proof.
  split.
  - exact (proj1 (do_request_error_before_result
                    (Mock.scripted [Mock.ok "both"])
                    (fun _ => inr (JDict [ ("result", JInt 1);
                                           ("error", JDict [ ("code", JInt 7) ]) ]))
                    Mock.repr "host.get#0"
                    (Mock.signed_in None (Some 10), Mock.world0)
                    [ ("result", JInt 1); ("error", JDict [ ("code", JInt 7) ]) ]
                    eq_refl)
             [ ("code", JInt 7) ] eq_refl).
  - exact (proj1 (do_request_error_before_result
                    (Mock.scripted [Mock.ok "self"])
                    (fun _ => inr (JDict [ ("result", JInt 1);
                                           ("error", JDict [ ("self", JInt 7) ]) ]))
                    Mock.repr "host.get#0"
                    (Mock.signed_in None (Some 10), Mock.world0)
                    [ ("result", JInt 1); ("error", JDict [ ("self", JInt 7) ]) ]
                    eq_refl)
             [ ("self", JInt 7) ] eq_refl).
Defined.

Lemma login_stores_token_witness :
  __auth (fst (snd (Mock.login [Mock.ok "token"] None None true
                      (Mock.signed_in (Some 60) (Some 10), Mock.world0))))
  = JStr "0424bd59".
Proof.
  refine (proj1 (proj2 (login_stores_token
                          Mock.clock (Mock.scripted [Mock.ok "token"])
                          Mock.json_dumps Mock.json_loads Mock.repr
                          Mock.encode_utf8
                          None None true
                          (Mock.signed_in (Some 60) (Some 10), Mock.world0)
                          (Some "Admin") "zabbix" "zabbix"
                          [ ("result", JStr "0424bd59") ] (JStr "0424bd59")
                          eq_refl eq_refl eq_refl _ eq_refl))).
  intros error H. discriminate H.
Defined.

Lemma login_persists_credentials_witness :
  __username (fst (snd (Mock.login [] (Some "guest") (Some "secret") true
                          (Mock.fresh (Some 60) (Some 10), Mock.world0))))
  = Some "guest".
Proof.
  exact (proj1 (proj2 (proj2 (login_persists_credentials
                                Mock.clock (Mock.scripted [])
                                Mock.json_dumps Mock.json_loads Mock.repr
                                Mock.encode_utf8
                                (Some "guest") (Some "secret") true
                                (Mock.fresh (Some 60) (Some 10), Mock.world0)))
                 eq_refl)).
Defined.

Lemma relogin_without_credentials_witness :
  Mock.relogin []
    (set_auth (JStr "stale") (Mock.fresh (Some 60) (Some 10)), Mock.world0)
  = (Raise (ZabbixAPIException "No authentication information available."),
     (set_auth JNull (set_auth (JStr "stale") (Mock.fresh (Some 60) (Some 10))),
      record Ev_login (record Ev_relogin Mock.world0))).
Proof.
  exact (relogin_without_credentials
           Mock.clock (Mock.scripted [])
           Mock.json_dumps Mock.json_loads Mock.repr Mock.encode_utf8
           (set_auth (JStr "stale") (Mock.fresh (Some 60) (Some 10)), Mock.world0)
           eq_refl).
Defined.

Lemma call_returns_result_witness :
  fst (Mock.call [Mock.ok "hosts"] "host.get" JNull
         (Mock.signed_in (Some 60) (Some 10), Mock.world0))
  = Return (JList [ JStr "web01" ]).
Proof.
  unfold Mock.call.
  edestruct (call_returns_result
               Mock.clock (Mock.scripted [Mock.ok "hosts"])
               Mock.json_dumps Mock.json_loads Mock.repr Mock.encode_utf8
               "host.get" JNull
               (Mock.signed_in (Some 60) (Some 10), Mock.world0)) as [H _];
    [reflexivity | reflexivity |].
  rewrite H. reflexivity.
Defined.

Lemma call_requires_login_witness :
  fst (Mock.call [] "host.get" JNull (Mock.lapsed None, Mock.world0))
  = Raise (ZabbixAPIException "Not logged in.").
Proof.
  exact (proj1 (call_requires_login
                  Mock.clock (Mock.scripted [])
                  Mock.json_dumps Mock.json_loads Mock.repr Mock.encode_utf8
                  "host.get" JNull
                  (Mock.lapsed None, Mock.world0) eq_refl eq_refl)).
Defined.

Lemma call_is_bounded_witness :
  (count_relogin
     (history (snd (snd (Mock.call Mock.denied_once "host.get" JNull
                           (Mock.signed_in (Some 60%Z) (Some 10%Z),
                            Mock.world0)))))
   <= count_relogin (history Mock.world0) + 1)%nat.
Proof.
  exact (proj2 (proj2 (proj2 (call_is_bounded
                                Mock.clock (Mock.scripted Mock.denied_once)
                                Mock.json_dumps Mock.json_loads Mock.repr
                                Mock.encode_utf8
                                "host.get" JNull
                                (Mock.signed_in (Some 60) (Some 10), Mock.world0)))
                 eq_refl)).
Defined.

Lemma recent_query_length_witness :
  recent_query
    (fst (do_requests (Mock.scripted [ Mock.ok "hosts"; Failed "timed out" ])
            Mock.json_loads Mock.repr
            [ "host.get#0"; "item.get#1"; "item.get#1" ]
            (Mock.fresh (Some 60) (Some 2), Mock.world0)))
  = [ "item.get#1"; "item.get#1" ].
Proof.
  exact (proj1 (recent_query_length
                  (Mock.scripted [ Mock.ok "hosts"; Failed "timed out" ])
                  Mock.json_loads Mock.repr
                  Mock.encode_utf8 "http://localhost/zabbix" None None
                  (Some 60) (Some 2) (Mock.fresh (Some 60) (Some 2))
                  Mock.world0 [ "host.get#0"; "item.get#1"; "item.get#1" ]
                  eq_refl eq_refl)).
Defined.


Lemma dot_call_underscore_witness :
  exists run,
    dot_call Mock.clock (Mock.scripted []) Mock.json_dumps Mock.json_loads
      Mock.repr Mock.encode_utf8 "host" "prefix" JNull = Some run
    /\ fst (run (Mock.signed_in None (Some 10), Mock.world0)) = Raise TypeError.
Proof.
  assert (Hc : ~ In "host" ZabbixAPI_names).
  { cbn. intros H.
    repeat (destruct H as [H | H]; [discriminate H |]). exact H. }
  destruct (dot_call_underscore
              Mock.clock (Mock.scripted [])
              Mock.json_dumps Mock.json_loads Mock.repr Mock.encode_utf8
              "host" "prefix" JNull
              (Mock.signed_in None (Some 10), Mock.world0)
              eq_refl Hc eq_refl eq_refl) as (run & E & _ & _ & T).
  exists run. split; [exact E |].
  exact (proj1 (T eq_refl (or_introl eq_refl))).
Defined.

Lemma getattr_caches_wrapper_witness :
  getattr "host"
    (snd (getattr "host" (Mock.signed_in None (Some 10), Mock.world0)))
  = (Return {| prefix := "host" |},
     snd (getattr "host" (Mock.signed_in None (Some 10), Mock.world0))).
Proof.
  assert (Hc : ~ In "host" ZabbixAPI_names).
  { cbn. intros H.
    repeat (destruct H as [H | H]; [discriminate H |]). exact H. }
  exact (proj1 (proj2 (getattr_caches_wrapper "host"
                         (Mock.signed_in None (Some 10), Mock.world0)
                         eq_refl Hc eq_refl))).
Defined.

Lemma new_client_must_login_witness :
  logged_in (Mock.fresh (Some 60) (Some 10)) = false
  /\ fst (Mock.call [] "host.get" JNull
            (Mock.fresh (Some 60) (Some 10), Mock.world0))
     = Raise (ZabbixAPIException "Not logged in.").
Proof.
  destruct (new_client_must_login
              Mock.clock (Mock.scripted [])
              Mock.json_dumps Mock.json_loads Mock.repr Mock.encode_utf8
              Mock.encode_utf8 "http://localhost/zabbix" None None
              (Some 60) (Some 10)
              (Mock.fresh (Some 60) (Some 10)) eq_refl)
    as (L & _ & _ & _ & _ & _ & C).
  split; [exact L |].
  exact (proj1 (C "host.get" JNull Mock.world0)).
Defined.
